(** * Gravity cluster upgrade: plan builder and OpenEBS component-upgrade executors

    A shallow embedding of
    - [lib/update/cluster/phases] (OpenEBS pool and volume upgrade executors:
      [NewPhaseUpgradePool], [NewPhaseUpgradeVolume], [execUpgradeJob]) and
    - [lib/update/cluster] (the phase builder: [migration], [openEBSUpgrade],
      [masters], [commonNode], [etcdPlan], [shouldUpdateEtcd], ...).

    Go values are modelled as follows.  Strings are [string] (byte strings).
    A Go [error] is the inductive [error]; the (value, error) pairs Go returns
    are [result]s, or pairs with an [option error] where the code returns a
    value next to a non-nil error.  A run-time panic is an explicit [outcome].
    Methods with a pointer receiver that mutate the phase ([AddSequential] and
    friends) are functions returning the updated phase, threaded through the
    builders with [let] in the order of the source.  The outcomes of external
    collaborators (kubectl, the job runner, the Kubernetes API, the package
    service) are inputs of the functions that call them. *)

From Stdlib Require Import String Ascii List Bool Arith ZArith Lia Relations.
Import ListNotations.
Open Scope string_scope.
Open Scope list_scope.

(** ** Go run time and standard library *)

(** [error] values.  [errors_New] is [errors.New], [trace_NotFound] is
    [trace.NotFound], [trace_Wrap] is [trace.Wrap] (only ever applied to a
    non-nil error in the code modelled here). *)
Inductive error : Type :=
| errors_New (msg : string)
| trace_NotFound (msg : string)
| trace_Wrap (e : error).

(** [trace.IsNotFound] looks through wrapping. *)
Fixpoint trace_IsNotFound (e : error) : bool :=
  match e with
  | errors_New _ => false
  | trace_NotFound _ => true
  | trace_Wrap e' => trace_IsNotFound e'
  end.

(** A Go call returning [(value, error)]. *)
Inductive result (A : Type) : Type :=
| Ok (a : A)
| Err (e : error).
Arguments Ok {A} a.
Arguments Err {A} e.

(** A Go call that either returns or panics at run time. *)
Inductive outcome (A : Type) : Type :=
| Returns (a : A)
| Panics (reason : string).
Arguments Returns {A} a.
Arguments Panics {A} reason.

Definition bind_outcome {A B} (o : outcome A) (k : A -> outcome B) : outcome B :=
  match o with
  | Returns a => k a
  | Panics r => Panics r
  end.

Notation "x <-! o ;; k" := (bind_outcome o (fun x => k))
  (at level 61, o at next level, right associativity).

(** Slice indexing [s[i]]: a run-time panic when [i] is out of range. *)
Definition index (s : list string) (i : nat) : outcome string :=
  match nth_error s i with
  | Some x => Returns x
  | None => Panics "index out of range"
  end.

Module strings.

(** [strings.Split(s, sep)] for a one-byte separator, the only use in the
    code (a space and a newline): the fields between consecutive separators,
    empty fields included; a string without the separator is its own single
    field, so the result is never empty. *)
Fixpoint Split (s : string) (sep : ascii) : list string :=
  match s with
  | EmptyString => [EmptyString]
  | String c s' =>
      if Ascii.eqb c sep then EmptyString :: Split s' sep
      else match Split s' sep with
           | [] => [String c EmptyString]
           | field :: fields => String c field :: fields
           end
  end.

(** [strings.TrimPrefix(s, prefix)]. *)
Definition TrimPrefix (s prefix : string) : string :=
  if String.prefix prefix s
  then substring (String.length prefix) (String.length s - String.length prefix) s
  else s.

End strings.

Definition space : ascii := " "%char.
Definition newline : ascii := ascii_of_nat 10.

Module fmt.

(** A formatted text.  [fmt.Sprintf] and [fmt.Sprint] are kept symbolic (the
    format and its arguments): descriptions are for human readers and the
    [%q] verb would need Go's quoting rules. *)
Inductive text : Type :=
| Lit (s : string)
| Sprintf (format : string) (args : list string)
| Sprint (args : list string).

End fmt.

(** ** Storage types ([lib/storage]), as far as the builders use them *)

Module storage.

Record Server : Type := mkServer {
  Hostname : string;
  AdvertiseIP : string
}.

Definition Server_eqb (a b : Server) : bool :=
  String.eqb (Hostname a) (Hostname b) && String.eqb (AdvertiseIP a) (AdvertiseIP b).

(** [storage.UpdateServer] embeds a [storage.Server]. *)
Record UpdateServer : Type := mkUpdateServer {
  us_Server : Server
}.

Record ElectionChange : Type := mkElectionChange {
  EnableServers : list Server;
  DisableServers : list Server
}.

Record UpdateOperationData : Type := mkUpdateOperationData {
  Servers : list UpdateServer
}.

(** [storage.OperationPhaseData]; pointer fields are options. *)
Record OperationPhaseData : Type := mkOperationPhaseData {
  Data_Server : option Server;
  Data_ExecServer : option Server;
  Data_Master : option Server;
  Data_Update : option UpdateOperationData;
  Data_ElectionChange : option ElectionChange;
  Data_Data : string
}.

End storage.

(** The executor names the builders refer to.  They are string constants
    declared elsewhere in the package; only their being distinct matters. *)
Inductive ExecutorKind : Type :=
| migrateLinks | updateLabels | migrateRoles
| updateOpenEBSPool | updateOpenEBSVolume
| kubeletPermissions | electionStatus
| drainNode | updateSystem | nodeHealth | taintNode | uncordonNode
| endpoints | untaintNode
| updateEtcdBackup | updateEtcdShutdown | updateEtcdMaster
| updateEtcdRestore | updateEtcdRestart | updateEtcdRestartGravity.

(** ** The phase tree ([lib/update]) *)

Module update.

(** [update.Phase] (an alias of [storage.OperationPhase]): an absent executor
    is the empty string of the source, a pure grouping node. *)
#[warnings="-register-all"]
Inductive Phase : Type := mkPhase {
  ID : string;
  Executor : option ExecutorKind;
  Description : fmt.text;
  Data : option storage.OperationPhaseData;
  Phases : list Phase;
  Requires : list string
}.

Definition set_ID (p : Phase) (id : string) : Phase :=
  mkPhase id (Executor p) (Description p) (Data p) (Phases p) (Requires p).

Definition set_Description (p : Phase) (d : fmt.text) : Phase :=
  mkPhase (ID p) (Executor p) d (Data p) (Phases p) (Requires p).

Definition set_Phases (p : Phase) (l : list Phase) : Phase :=
  mkPhase (ID p) (Executor p) (Description p) (Data p) l (Requires p).

(** Modelled from the spec: [Phase.Require] of lib/update is not among the
    sources.  A phase holds "a set of dependency references to other phases
    elsewhere in the tree"; a reference is the path of the phase referred to. *)
Definition Require (p : Phase) (dep : string) : Phase :=
  mkPhase (ID p) (Executor p) (Description p) (Data p) (Phases p) (Requires p ++ [dep]).

(** Modelled from the spec: [Phase.ChildLiteral] of lib/update is not among
    the sources.  A phase is "identified by a hierarchical path (parent path +
    child segment)". *)
Definition ChildLiteral (p : Phase) (sub : string) : string :=
  ID p ++ "/" ++ sub.

(** Modelled from the spec: [update.RootPhase] of lib/update is not among the
    sources ([newRoot(id, description)]); a top-level phase has the empty
    parent path. *)
Definition RootPhase (sub : Phase) : Phase :=
  set_ID sub ("/" ++ ID sub)%string.

(** Modelled from the spec: [Phase.AddParallel] of lib/update is not among the
    sources.  "Parallel (no ordering among siblings, attached at the same tree
    position)": the children are appended and gain no dependency. *)
Definition AddParallel (p : Phase) (sub : list Phase) : Phase :=
  set_Phases p (Phases p ++ sub).

(** Modelled from the spec: [Phase.Add] of lib/update is not among the
    sources, and the spec's contract names no plain attachment.  [etcdPlan]
    uses it for the stage groups, which the spec calls "separate parallel
    groups" ordered only by their explicit per-node edges: the children are
    appended and gain no dependency. *)
Definition Add (p : Phase) (sub : list Phase) : Phase :=
  set_Phases p (Phases p ++ sub).

(** The last element of a slice, [p.Phases[len(p.Phases)-1]], if any. *)
Definition last_error {A} (l : list A) : option A :=
  nth_error l (length l - 1).

(** Modelled from the spec: [Phase.AddSequential] of lib/update is not among
    the sources.  "Sequential (strict order, each gated on the previous
    succeeding)": a child attached when the parent already has children gains
    a dependency on the last of them, then is appended. *)
Definition AddSequential (p : Phase) (sub : list Phase) : Phase :=
  fold_left
    (fun p s =>
       match last_error (Phases p) with
       | Some prev => set_Phases p (Phases p ++ [Require s (ID prev)])
       | None => set_Phases p (Phases p ++ [s])
       end)
    sub p.

(** Modelled from the spec: [Phase.AddWithDependency] of lib/update is not
    among the sources.  "Dependency-gated (may start only once every phase in
    its explicit dependency set has succeeded, regardless of tree position)":
    the child gains the given reference, then is appended. *)
Definition AddWithDependency (p : Phase) (dep : string) (sub : Phase) : Phase :=
  set_Phases p (Phases p ++ [Require sub dep]).

(** Does the phase target the given node? *)
Definition targets (server : storage.Server) (p : Phase) : bool :=
  match Data p with
  | Some d =>
      match storage.Data_Server d with
      | Some s => storage.Server_eqb s server
      | None => false
      end
  | None => false
  end.

(** Modelled from the spec: [update.DependencyForServer] of lib/update is not
    among the sources.  A dependency reference is "optionally scoped to a
    specific node/target": the reference is to the sub-phase of [phase] that
    targets [server], and to the full stage [phase] when there is none. *)
Definition DependencyForServer (phase : Phase) (server : storage.Server) : string :=
  match find (targets server) (Phases phase) with
  | Some sub => ID sub
  | None => ID phase
  end.

(** The phases of a tree in pre-order. *)
Fixpoint flatten (p : Phase) : list Phase :=
  p :: flat_map flatten (Phases p).

End update.

Import update.

(** ** OpenEBS component-upgrade executors ([phases] package) *)

Definition k8sJobPrefix : string := "cstor".
Definition k8sNamespace : string := "openebs".

(** [PhaseUpgradePool]; the logger and the API client are handed through
    unchanged and are not part of the model. *)
Record PhaseUpgradePool : Type := mkPhaseUpgradePool {
  Pool : string;
  Pool_FromVersion : string;
  Pool_ToVersion : string
}.

Record PhaseUpgradeVolume : Type := mkPhaseUpgradeVolume {
  Volume : string;
  Volume_FromVersion : string;
  Volume_ToVersion : string
}.

(** [phase.Data] is a pointer: reading through a nil one panics. *)
Definition deref {A} (p : option A) : outcome A :=
  match p with
  | Some a => Returns a
  | None => Panics "nil pointer dereference"
  end.

(** [NewPhaseUpgradePool] creates a pool upgrade phase.  The error it returns
    is [nil] on every returning path. *)
Definition NewPhaseUpgradePool (phase : Phase)
  : outcome (PhaseUpgradePool * option error) :=
  data <-! deref (Data phase) ;;
  let poolAndVer := strings.Split (storage.Data_Data data) space in
  pool <-! index poolAndVer 0 ;;
  fromVersion <-! index poolAndVer 1 ;;
  toVersion <-! index poolAndVer 2 ;;
  Returns ({| Pool := pool;
              Pool_FromVersion := fromVersion;
              Pool_ToVersion := toVersion |}, None).

(** [NewPhaseUpgradeVolume] creates a volume upgrade phase. *)
Definition NewPhaseUpgradeVolume (phase : Phase)
  : outcome (PhaseUpgradeVolume * option error) :=
  data <-! deref (Data phase) ;;
  let volAndVer := strings.Split (storage.Data_Data data) space in
  volume <-! index volAndVer 0 ;;
  fromVersion <-! index volAndVer 1 ;;
  toVersion <-! index volAndVer 2 ;;
  Returns ({| Volume := volume;
              Volume_FromVersion := fromVersion;
              Volume_ToVersion := toVersion |}, None).

(** [hooks.JobRef] *)
Record JobRef : Type := mkJobRef {
  JobRef_Name : string;
  JobRef_Namespace : string
}.

(** [batchv1.Job], reduced to [job.Status.Failed] (an int32). *)
Record Job : Type := mkJob {
  Status_Failed : Z
}.

Section UpgradeJob.

(** [*template.Template] and the data it is executed on. *)
Variables Template TemplateData : Type.

(** The collaborators of [execUpgradeJob], each with the outcome of its call.
    A call that hands back a value next to its error is a pair. *)
Record Collaborators : Type := mkCollaborators {
  (* [template.Execute(&buf, templateData)]: the rendered bytes *)
  template_Execute : Template -> TemplateData -> result string;
  (* [ioutil.WriteFile(jobFile, bytes, 0644)] *)
  ioutil_WriteFile : string -> string -> option error;
  (* [kubectl.Apply(jobFile)]: captured output and error *)
  kubectl_Apply : string -> string * option error;
  (* [hooks.NewRunner(client)] *)
  hooks_NewRunner : option error;
  (* [runner.Wait(ctx, jobRef)] *)
  runner_Wait : JobRef -> option error;
  (* [runner.StreamLogs(ctx, jobRef, logs)]: what was written to [logs],
      and the error *)
  runner_StreamLogs : JobRef -> string * option error;
  (* [client.BatchV1().Jobs(namespace).Get(name, ...)] *)
  Jobs_Get : string -> string -> result Job
}.

Variable w : Collaborators.

(** [execUpgradeJob]: render, write, apply, stream the logs until the job
    ends, then fetch the job and look at its failed pods.  The [%v] of a
    string is the string. *)
Definition execUpgradeJob (template : Template) (templateData : TemplateData)
    (jobName : string) : string * option error :=
  match template_Execute w template templateData with
  | Err err => ("", Some (trace_Wrap err))
  | Ok buf =>
  let jobFile := "openebs_data_plane_component_upgrade.yaml" in
  match ioutil_WriteFile w jobFile buf with
  | Some err => ("", Some (trace_Wrap err))
  | None =>
  match kubectl_Apply w jobFile with
  | (out, Some err) => (("Failed to exec kubectl: " ++ out)%string, Some (trace_Wrap err))
  | (out, None) =>
  match hooks_NewRunner w with
  | Some err => ("", Some (trace_Wrap err))
  | None =>
  let jobRef := {| JobRef_Name := jobName; JobRef_Namespace := k8sNamespace |} in
  match runner_StreamLogs w jobRef with
  | (logs, Some err) => (logs, Some (trace_Wrap err))
  | (logs, None) =>
  match Jobs_Get w (JobRef_Namespace jobRef) (JobRef_Name jobRef) with
  | Err err => (logs, Some (trace_Wrap err))
  | Ok job =>
  if negb (Z.eqb (Status_Failed job) 0)
  then (logs, Some (trace_Wrap (errors_New "upgrade job has failed pods")))
  else (logs, None)
  end end end end end end.

(** The copy of the [phases] package kept next to the vendored iSCSI checker
    is an earlier revision of the same function: it waits for the job, then
    streams its logs, and does not look at the job afterwards. *)
Definition execUpgradeJob_earlier (template : Template) (templateData : TemplateData)
    (jobName : string) : string * option error :=
  match template_Execute w template templateData with
  | Err err => ("", Some (trace_Wrap err))
  | Ok buf =>
  let upgradeJobFile := "openebs_data_plane_component_upgrade.yaml" in
  match ioutil_WriteFile w upgradeJobFile buf with
  | Some err => ("", Some (trace_Wrap err))
  | None =>
  match kubectl_Apply w upgradeJobFile with
  | (kubectlJobOut, Some err) =>
      (("Failed to upgrade openEBS data plane component. Output " ++ kubectlJobOut ++ ":")%string,
       Some (trace_Wrap err))
  | (kubectlJobOut, None) =>
  match hooks_NewRunner w with
  | Some err => ("", Some (trace_Wrap err))
  | None =>
  let namespace := "openebs" in
  match runner_Wait w {| JobRef_Name := jobName; JobRef_Namespace := namespace |} with
  | Some err => ("", Some (trace_Wrap err))
  | None =>
  match runner_StreamLogs w {| JobRef_Name := jobName; JobRef_Namespace := namespace |} with
  | (upgradeJobLog, Some err) => ("", Some (trace_Wrap err))
  | (upgradeJobLog, None) => (upgradeJobLog, None)
  end end end end end end.

End UpgradeJob.

Arguments template_Execute {Template TemplateData} _ _ _.
Arguments ioutil_WriteFile {Template TemplateData} _ _ _.
Arguments kubectl_Apply {Template TemplateData} _ _.
Arguments hooks_NewRunner {Template TemplateData} _.
Arguments runner_Wait {Template TemplateData} _ _.
Arguments runner_StreamLogs {Template TemplateData} _ _.
Arguments Jobs_Get {Template TemplateData} _ _ _.
Arguments execUpgradeJob {Template TemplateData} w template templateData jobName.
Arguments execUpgradeJob_earlier {Template TemplateData} w template templateData jobName.

(** ** The phase builder ([cluster] package) *)

Definition etcdPhaseName : string := "etcd".

(** [constants.GravityServiceName], declared in lib/constants; the value is
    the one the comment at its use in [etcdPlan] gives. *)
Definition GravityServiceName : string := "gravity-site".

(** [electionChanges] *)
Record electionChanges : Type := mkElectionChanges {
  enable : list storage.Server;
  disable : list storage.Server;
  description : fmt.text;
  id : string
}.

(** The zero value [electionChanges{}]. *)
Definition noElectionChanges : electionChanges :=
  {| enable := []; disable := []; description := fmt.Lit ""; id := "" |}.

Definition shouldAddPhase (e : electionChanges) : bool :=
  if negb (Nat.eqb (length (enable e)) 0) || negb (Nat.eqb (length (disable e)) 0)
  then true
  else false.

Definition electionChanges_ID (e : electionChanges) : string :=
  if negb (String.eqb (id e) "") then id e else "elect".

(** [serversToStorage] *)
Definition serversToStorage (updates : list storage.UpdateServer) : list storage.Server :=
  fold_left (fun result update => result ++ [storage.us_Server update]) updates [].

(** The hostname of an update server, promoted from the embedded server. *)
Definition us_Hostname (s : storage.UpdateServer) : string :=
  storage.Hostname (storage.us_Server s).

(** [setLeaderElection] creates a phase that will change the leader election
    state in the cluster. *)
Definition setLeaderElection (electionChanges : electionChanges)
    (server : storage.UpdateServer) : Phase :=
  {| ID := electionChanges_ID electionChanges;
     Executor := Some electionStatus;
     Description := description electionChanges;
     Data := Some {| storage.Data_Server := Some (storage.us_Server server);
                     storage.Data_ExecServer := None;
                     storage.Data_Master := None;
                     storage.Data_Update := None;
                     storage.Data_ElectionChange :=
                       Some {| storage.EnableServers := enable electionChanges;
                               storage.DisableServers := disable electionChanges |};
                     storage.Data_Data := "" |};
     Phases := [];
     Requires := [] |}.

(** A phase with an executor, a target and a driving node, and nothing else:
    the shape of most literals in [commonNode]. *)
Definition nodePhase (id : string) (executor : ExecutorKind) (description : fmt.text)
    (server execServer : option storage.Server)
    (upd : option storage.UpdateOperationData) : Phase :=
  {| ID := id;
     Executor := Some executor;
     Description := description;
     Data := Some {| storage.Data_Server := server;
                     storage.Data_ExecServer := execServer;
                     storage.Data_Master := None;
                     storage.Data_Update := upd;
                     storage.Data_ElectionChange := None;
                     storage.Data_Data := "" |};
     Phases := [];
     Requires := [] |}.

(** [commonNode] returns a list of operations required for any node role to
    upgrade its system software. *)
Definition commonNode (server leadMaster : storage.UpdateServer) (supportsTaints : bool)
    (waitsForEndpoints : bool) (electionChanges : electionChanges) : list Phase :=
  let phases :=
    [ nodePhase "drain" drainNode
        (fmt.Sprintf "Drain node %q" [us_Hostname server])
        (Some (storage.us_Server server)) (Some (storage.us_Server leadMaster)) None;
      nodePhase "system-upgrade" updateSystem
        (fmt.Sprintf "Update system software on node %q" [us_Hostname server])
        None (Some (storage.us_Server server))
        (Some {| storage.Servers := [server] |}) ] in
  let phases :=
    if shouldAddPhase electionChanges
    then phases ++ [setLeaderElection electionChanges server]
    else phases in
  let phases :=
    phases ++ [nodePhase "health" nodeHealth
                 (fmt.Sprintf "Health check node %q" [us_Hostname server])
                 (Some (storage.us_Server server)) None None] in
  let phases :=
    if supportsTaints
    then phases ++ [nodePhase "taint" taintNode
                      (fmt.Sprintf "Taint node %q" [us_Hostname server])
                      (Some (storage.us_Server server))
                      (Some (storage.us_Server leadMaster)) None]
    else phases in
  let phases :=
    phases ++ [nodePhase "uncordon" uncordonNode
                 (fmt.Sprintf "Uncordon node %q" [us_Hostname server])
                 (Some (storage.us_Server server))
                 (Some (storage.us_Server leadMaster)) None] in
  let phases :=
    if waitsForEndpoints
    then phases ++ [nodePhase "endpoints" endpoints
                      (fmt.Sprintf "Wait for DNS/cluster endpoints on %q" [us_Hostname server])
                      (Some (storage.us_Server server))
                      (Some (storage.us_Server leadMaster)) None]
    else phases in
  let phases :=
    if supportsTaints
    then phases ++ [nodePhase "untaint" untaintNode
                      (fmt.Sprintf "Remove taint from node %q" [us_Hostname server])
                      (Some (storage.us_Server server))
                      (Some (storage.us_Server leadMaster)) None]
    else phases in
  phases.

(** A grouping phase: an ID and a description only. *)
Definition group (id : string) (description : fmt.text) : Phase :=
  {| ID := id; Executor := None; Description := description; Data := None;
     Phases := []; Requires := [] |}.

(** [node]: the grouping phase of one node under [parent]. *)
Definition node (server : storage.Server) (parent : Phase) (format : string) : Phase :=
  group (ChildLiteral parent (storage.Hostname server))
        (fmt.Sprintf format [storage.Hostname server]).

(** [masters] returns a new phase for upgrading master servers.  [leadMaster]
    is the master node that is upgraded first and gets to be the leader during
    the operation; [otherMasters] lists the rest of the master nodes (can be
    empty). *)
Definition masters (leadMaster : storage.UpdateServer)
    (otherMasters : list storage.UpdateServer) (supportsTaints : bool) : Phase :=
  let root := RootPhase (group "masters" (fmt.Lit "Update master nodes")) in
  let node0 := node (storage.us_Server leadMaster) root
                 "Update system software on master node %q" in
  let node0 :=
    if negb (Nat.eqb (length otherMasters) 0) then
      let node0 := AddSequential node0
        [ {| ID := "kubelet-permissions";
             Executor := Some kubeletPermissions;
             Description := fmt.Sprintf "Add permissions to kubelet on %q"
                              [us_Hostname leadMaster];
             Data := Some {| storage.Data_Server := Some (storage.us_Server leadMaster);
                             storage.Data_ExecServer := None;
                             storage.Data_Master := None;
                             storage.Data_Update := None;
                             storage.Data_ElectionChange := None;
                             storage.Data_Data := "" |};
             Phases := [];
             Requires := [] |} ] in
      (* election - stepdown first node we will upgrade *)
      let node0 := AddSequential node0
        [ setLeaderElection
            {| id := "stepdown";
               description := fmt.Sprintf "Step down %q as Kubernetes leader"
                                [us_Hostname leadMaster];
               enable := [];
               disable := serversToStorage [leadMaster] |}
            leadMaster ] in
      (* election - force failover to first upgraded master *)
      let electionChanges :=
        {| id := "";
           description := fmt.Sprintf "Make node %q Kubernetes leader"
                            [us_Hostname leadMaster];
           enable := serversToStorage [leadMaster];
           disable := serversToStorage otherMasters |} in
      AddSequential node0
        (commonNode leadMaster leadMaster supportsTaints false electionChanges)
    else
      AddSequential node0
        (commonNode leadMaster leadMaster supportsTaints true noElectionChanges) in
  let root := AddSequential root [node0] in
  fold_left
    (fun root server =>
       let node := node (storage.us_Server server) root
                     "Update system software on master node %q" in
       let electionChanges :=
         {| id := "";
            description := fmt.Sprintf "Enable leader election on node %q"
                             [us_Hostname server];
            enable := serversToStorage [server];
            disable := [] |} in
       let node := AddSequential node
         (commonNode server leadMaster supportsTaints true electionChanges) in
       AddSequential root [node])
    otherMasters root.

(** A phase of the etcd sub-plan under [parent]: an executor and the
    [storage.OperationPhaseData] of the literal. *)
Definition etcdPhase (id : string) (executor : ExecutorKind) (description : fmt.text)
    (server master : option storage.Server) (data : string) : Phase :=
  {| ID := id;
     Executor := Some executor;
     Description := description;
     Data := Some {| storage.Data_Server := server;
                     storage.Data_ExecServer := None;
                     storage.Data_Master := master;
                     storage.Data_Update := None;
                     storage.Data_ElectionChange := None;
                     storage.Data_Data := data |};
     Phases := [];
     Requires := [] |}.

Definition etcdBackupNode (server : storage.Server) (parent : Phase) : Phase :=
  etcdPhase (ChildLiteral parent (storage.Hostname server)) updateEtcdBackup
    (fmt.Sprintf "Backup etcd on node %q" [storage.Hostname server])
    (Some server) None "".

(** [strconv.FormatBool] *)
Definition FormatBool (b : bool) : string := if b then "true" else "false".

Definition etcdShutdownNode (server : storage.Server) (parent : Phase)
    (isLeader : bool) : Phase :=
  etcdPhase (ChildLiteral parent (storage.Hostname server)) updateEtcdShutdown
    (fmt.Sprintf "Shutdown etcd on node %q" [storage.Hostname server])
    (Some server) None (FormatBool isLeader).

Definition etcdUpgrade (server : storage.Server) (parent : Phase) : Phase :=
  etcdPhase (ChildLiteral parent (storage.Hostname server)) updateEtcdMaster
    (fmt.Sprintf "Upgrade etcd on node %q" [storage.Hostname server])
    (Some server) None "".

Definition etcdRestart (server leadMaster : storage.Server) (parent : Phase) : Phase :=
  etcdPhase (ChildLiteral parent (storage.Hostname server)) updateEtcdRestart
    (fmt.Sprintf "Restart etcd on node %q" [storage.Hostname server])
    (Some server) (Some leadMaster) "".

(** [etcdPlan]: backup, shutdown, upgrade, restore and restart of etcd on the
    master nodes.  [workers] is not used by the function. *)
Definition etcdPlan (leadMaster : storage.Server)
    (otherMasters workers : list storage.Server)
    (currentVersion desiredVersion : string) : Phase :=
  let root := RootPhase (group etcdPhaseName
                (fmt.Sprintf "Upgrade etcd %v to %v" [currentVersion; desiredVersion])) in
  let root :=
    if String.eqb currentVersion ""
    then set_Description root (fmt.Sprintf "Upgrade etcd to %v" [desiredVersion])
    else root in
  (* Backup etcd on each master server *)
  let backupEtcd := group (ChildLiteral root "backup") (fmt.Lit "Backup etcd data") in
  let backupEtcd := AddParallel backupEtcd [etcdBackupNode leadMaster backupEtcd] in
  let backupEtcd :=
    fold_left
      (fun backupEtcd server =>
         let p := etcdBackupNode server backupEtcd in
         AddParallel backupEtcd [p])
      otherMasters backupEtcd in
  let root := AddSequential root [backupEtcd] in
  (* Shutdown etcd *)
  let shutdownEtcd := group (ChildLiteral root "shutdown") (fmt.Lit "Shutdown etcd cluster") in
  let shutdownEtcd :=
    AddWithDependency shutdownEtcd
      (DependencyForServer backupEtcd leadMaster)
      (etcdShutdownNode leadMaster shutdownEtcd true) in
  let shutdownEtcd :=
    fold_left
      (fun shutdownEtcd server =>
         let p := etcdShutdownNode server shutdownEtcd false in
         AddWithDependency shutdownEtcd (DependencyForServer backupEtcd server) p)
      otherMasters shutdownEtcd in
  let root := Add root [shutdownEtcd] in
  (* Upgrade servers *)
  let upgradeServers := group (ChildLiteral root "upgrade") (fmt.Lit "Upgrade etcd servers") in
  let upgradeServers :=
    AddWithDependency upgradeServers
      (DependencyForServer shutdownEtcd leadMaster)
      (etcdUpgrade leadMaster upgradeServers) in
  let upgradeServers :=
    fold_left
      (fun upgradeServers server =>
         let p := etcdUpgrade server upgradeServers in
         AddWithDependency upgradeServers (DependencyForServer shutdownEtcd server) p)
      otherMasters upgradeServers in
  let root := Add root [upgradeServers] in
  (* Restore kubernetes data *)
  let restoreData :=
    etcdPhase (ChildLiteral root "restore") updateEtcdRestore
      (fmt.Lit "Restore etcd data from backup") (Some leadMaster) None "" in
  let root := AddSequential root [restoreData] in
  (* restart master servers *)
  let restartMasters := group (ChildLiteral root "restart") (fmt.Lit "Restart etcd servers") in
  let restartMasters :=
    AddWithDependency restartMasters
      (DependencyForServer restoreData leadMaster)
      (etcdRestart leadMaster leadMaster restartMasters) in
  let restartMasters :=
    fold_left
      (fun restartMasters server =>
         let p := etcdRestart server leadMaster restartMasters in
         AddWithDependency restartMasters (DependencyForServer upgradeServers server) p)
      otherMasters restartMasters in
  (* also restart gravity-site, so that elections get unbroken *)
  let restartMasters :=
    AddParallel restartMasters
      [ etcdPhase (ChildLiteral restartMasters GravityServiceName) updateEtcdRestartGravity
          (fmt.Sprint ["Restart "%string; GravityServiceName; " service"%string])
          (Some leadMaster) None "" ] in
  let root := Add root [restartMasters] in
  root.

(** [utils.Exec(cmd, &out)] of one discovery query: what the command wrote to
    the buffer, and the error. *)
Record Discovery : Type := mkDiscovery {
  pools_out : string;
  pools_err : option error;
  volumes_out : string;
  volumes_err : option error
}.

(** [openEBSUpgrade] attaches one upgrade phase per discovered pool and volume
    to [root], which the caller passes by pointer: the phase after the call is
    the first component of the result, the error the second.  The progress
    messages printed to standard output are not modelled. *)
Definition openEBSUpgrade (d : Discovery) (leadMaster : storage.UpdateServer)
    (root : Phase) : Phase * option error :=
  (* Upgrade pools *)
  match pools_err d with
  | Some err => (root, Some (trace_Wrap err))
  | None =>
  let commandOutput := pools_out d in
  if Nat.eqb (String.length commandOutput) 0
  then (root, Some (trace_Wrap (errors_New "failed to get pool info")))
  else
  let poolsAndVersion := strings.Split commandOutput newline in
  let root :=
    fold_left
      (fun root poolAndVer =>
         let upgradeVolume :=
           {| ID := "openebs-upgrade-pool";
              Description := fmt.Sprintf "Upgrade OpenEBS cStor pool: %v" [poolAndVer];
              Executor := Some updateOpenEBSPool;
              Data := Some {| storage.Data_Server := None;
                              storage.Data_ExecServer := None;
                              storage.Data_Master := None;
                              storage.Data_Update := None;
                              storage.Data_ElectionChange := None;
                              storage.Data_Data := poolAndVer |};
              Phases := [];
              Requires := [] |} in
         AddSequential root [upgradeVolume])
      poolsAndVersion root in
  (* Upgrade volumes *)
  match volumes_err d with
  | Some err => (root, Some (trace_Wrap err))
  | None =>
  let commandOutput := volumes_out d in
  if Nat.eqb (String.length commandOutput) 0
  then (root, Some (trace_Wrap (errors_New "failed to get pool info")))
  else
  let volumesAndVersion := strings.Split commandOutput newline in
  let root :=
    fold_left
      (fun root volAndVer =>
         let upgradeVolume :=
           {| ID := ChildLiteral root "openebs-upgrade-volume";
              Description := fmt.Sprintf "Upgrade OpenEBS cStor volume: %v" [volAndVer];
              Executor := Some updateOpenEBSVolume;
              Data := Some {| storage.Data_Server := None;
                              storage.Data_ExecServer := None;
                              storage.Data_Master := None;
                              storage.Data_Update := None;
                              storage.Data_ElectionChange := None;
                              storage.Data_Data := volAndVer |};
              Phases := [];
              Requires := [] |} in
         AddSequential root [upgradeVolume])
      volumesAndVersion root in
  (root, None)
  end end.

(** [loc.Locator] *)
Record Locator : Type := mkLocator {
  Locator_Repository : string;
  Locator_Name : string;
  Locator_Version : string
}.

(** A label of a package manifest. *)
Record Label : Type := mkLabel {
  Label_Name : string;
  Label_Value : string
}.

(** The package manifest [pack.GetPackageManifest] returns, reduced to its
    labels. *)
Record PackageManifest : Type := mkPackageManifest {
  Labels : list Label
}.

(** An application manifest, as [shouldUpdateEtcd] queries it: what
    [Manifest.DefaultRuntimePackage()] and [Manifest.Dependencies.ByName(name)]
    return. *)
Record Manifest : Type := mkManifest {
  DefaultRuntimePackage : result Locator;
  Dependencies_ByName : string -> result Locator
}.

Record Application : Type := mkApplication {
  App_Manifest : Manifest
}.

Section PlanConfig.

(** The links, trusted clusters and roles of the plan configuration, and
    [libphase.NeedMigrateRoles], which lives with the executors. *)
Variables Link TrustedCluster Role : Type.
Variable NeedMigrateRoles : list Role -> bool.

(** [planConfig], as far as [migration] and [shouldUpdateEtcd] read it.  The
    package service is what [pack.GetPackageManifest] answers for a locator. *)
Record planConfig : Type := mkPlanConfig {
  links : list Link;
  trustedClusters : list TrustedCluster;
  roles : list Role;
  installedRuntime : Application;
  updateRuntime : Application;
  packageService : Locator -> result PackageManifest
}.

(** [migration] constructs a migration phase based on the plan params.  [nil]
    is [None]. *)
Definition migration (r : planConfig) (leadMaster : storage.Server) : option Phase :=
  let root := RootPhase (group "migration" (fmt.Lit "Perform system database migration")) in
  let subphases : list Phase := [] in
  (* do we need to migrate links to trusted clusters? *)
  let subphases :=
    if negb (Nat.eqb (length (links r)) 0) && Nat.eqb (length (trustedClusters r)) 0
    then subphases ++
         [ {| ID := ChildLiteral root "links";
              Description := fmt.Lit "Migrate remote Gravity Hub links to trusted clusters";
              Executor := Some migrateLinks;
              Data := None; Phases := []; Requires := [] |} ]
    else subphases in
  (* Update / reset the labels during upgrade *)
  let subphases :=
    subphases ++
    [ {| ID := ChildLiteral root "labels";
         Description := fmt.Lit "Update node labels";
         Executor := Some updateLabels;
         Data := None; Phases := []; Requires := [] |} ] in
  (* migrate roles *)
  let subphases :=
    if NeedMigrateRoles (roles r)
    then subphases ++
         [ {| ID := ChildLiteral root "roles";
              Description := fmt.Lit "Migrate cluster roles to a new format";
              Executor := Some migrateRoles;
              Data := Some {| storage.Data_Server := None;
                              storage.Data_ExecServer := Some leadMaster;
                              storage.Data_Master := None;
                              storage.Data_Update := None;
                              storage.Data_ElectionChange := None;
                              storage.Data_Data := "" |};
              Phases := []; Requires := [] |} ]
    else subphases in
  (* no migrations needed *)
  if Nat.eqb (length subphases) 0
  then None
  else
    let root := AddParallel root subphases in
    Some root.

(** [*semver.Version] of go-semver with its parser, its three-way comparison
    and its printer, and the name of the legacy runtime package
    ([loc.LegacyPlanetMaster.Name]). *)
Variable Version : Type.
Variable semver_NewVersion : string -> result Version.
Variable semver_Compare : Version -> Version -> Z.
Variable semver_String : Version -> string.
Variable LegacyPlanetMaster_Name : string.

(** The loop of [getEtcdVersion] over the labels of the manifest. *)
Fixpoint getEtcdVersion_labels (searchLabel : string) (labels : list Label)
  : result Version :=
  match labels with
  | [] => Err (trace_NotFound "package manifest for %q does not have label %v")
  | label :: rest =>
      if String.eqb (Label_Name label) searchLabel then
        let versionS := strings.TrimPrefix (Label_Value label) "v" in
        match semver_NewVersion versionS with
        | Err err => Err (trace_Wrap err)
        | Ok version => Ok version
        end
      else getEtcdVersion_labels searchLabel rest
  end.

Definition getEtcdVersion (searchLabel : string) (locator : Locator)
    (packageService : Locator -> result PackageManifest) : result Version :=
  match packageService locator with
  | Err err => Err (trace_Wrap err)
  | Ok manifest => getEtcdVersion_labels searchLabel (Labels manifest)
  end.

(** [shouldUpdateEtcd]: (updateEtcd, installedEtcdVersion, updateEtcdVersion,
    err). *)
Definition shouldUpdateEtcd (p : planConfig) : bool * string * string * option error :=
  let fail (err : error) := (false, "", "", Some err) in
  let continue (runtimePackage : Locator) :=
    let installed := getEtcdVersion "version-etcd" runtimePackage (packageService p) in
    let after_installed (installedVersion : option Version) (updateEtcd : bool) :=
      match DefaultRuntimePackage (App_Manifest (updateRuntime p)) with
      | Err err => fail (trace_Wrap err)
      | Ok runtimePackage =>
      match getEtcdVersion "version-etcd" runtimePackage (packageService p) with
      | Err err => fail (trace_Wrap err)
      | Ok updateVersion =>
      let updateEtcd :=
        match installedVersion with
        | None => true
        | Some v => if (semver_Compare v updateVersion <? 0)%Z then true else updateEtcd
        end in
      let installedEtcdVersion :=
        match installedVersion with
        | Some v => semver_String v
        | None => ""
        end in
      let updateEtcdVersion := semver_String updateVersion in
      (updateEtcd, installedEtcdVersion, updateEtcdVersion, None)
      end end in
    match installed with
    | Err err =>
        if negb (trace_IsNotFound err) then fail (trace_Wrap err)
        else
          (* if the currently installed version doesn't have etcd version
             information, it needs to be upgraded *)
          after_installed None true
    | Ok installedVersion => after_installed (Some installedVersion) false
    end in
  match DefaultRuntimePackage (App_Manifest (installedRuntime p)) with
  | Err err =>
      if negb (trace_IsNotFound err) then fail (trace_Wrap err)
      else
        match Dependencies_ByName (App_Manifest (installedRuntime p))
                LegacyPlanetMaster_Name with
        | Err err => fail (trace_NotFound "runtime package not found")
        | Ok runtimePackage => continue runtimePackage
        end
  | Ok runtimePackage => continue runtimePackage
  end.

End PlanConfig.

Arguments links {Link TrustedCluster Role} _.
Arguments trustedClusters {Link TrustedCluster Role} _.
Arguments roles {Link TrustedCluster Role} _.
Arguments installedRuntime {Link TrustedCluster Role} _.
Arguments updateRuntime {Link TrustedCluster Role} _.
Arguments packageService {Link TrustedCluster Role} _ _.
Arguments mkPlanConfig {Link TrustedCluster Role} _ _ _ _ _ _.
Arguments migration {Link TrustedCluster Role} NeedMigrateRoles r leadMaster.
Arguments getEtcdVersion_labels {Version} semver_NewVersion searchLabel labels.
Arguments getEtcdVersion {Version} semver_NewVersion searchLabel locator packageService.
Arguments shouldUpdateEtcd {Link TrustedCluster Role Version}
  semver_NewVersion semver_Compare semver_String LegacyPlanetMaster_Name p.

(** ** A small go-semver

    Plain [MAJOR.MINOR.PATCH] versions, without pre-release or build metadata,
    to run [shouldUpdateEtcd] on concrete manifests.  The theorems about
    [shouldUpdateEtcd] hold for any parser and comparison. *)

Module semver.

Record Version : Type := mkVersion {
  Major : N;
  Minor : N;
  Patch : N
}.

Fixpoint parse_digits (s : string) (acc : N) : option N :=
  match s with
  | EmptyString => Some acc
  | String c s' =>
      let n := nat_of_ascii c in
      if (48 <=? n)%nat && (n <=? 57)%nat
      then parse_digits s' (acc * 10 + N.of_nat (n - 48))%N
      else None
  end.

Definition parse_number (s : string) : option N :=
  match s with
  | EmptyString => None
  | _ => parse_digits s 0%N
  end.

Definition NewVersion (s : string) : result Version :=
  match strings.Split s "."%char with
  | [a; b; c] =>
      match parse_number a, parse_number b, parse_number c with
      | Some x, Some y, Some z => Ok (mkVersion x y z)
      | _, _, _ => Err (errors_New "invalid version number")
      end
  | _ => Err (errors_New "version is not in dotted-tri format")
  end.

Definition Compare (a b : Version) : Z :=
  match (Major a ?= Major b)%N with
  | Lt => (-1)%Z
  | Gt => 1%Z
  | Eq =>
      match (Minor a ?= Minor b)%N with
      | Lt => (-1)%Z
      | Gt => 1%Z
      | Eq =>
          match (Patch a ?= Patch b)%N with
          | Lt => (-1)%Z
          | Gt => 1%Z
          | Eq => 0%Z
          end
      end
  end.

Fixpoint digits (fuel : nat) (n : N) (acc : string) : string :=
  match fuel with
  | O => acc
  | S fuel' =>
      let acc' := String (ascii_of_N (48 + n mod 10)) acc in
      if (n / 10 =? 0)%N then acc' else digits fuel' (n / 10)%N acc'
  end.

Definition print_number (n : N) : string :=
  digits (S (N.to_nat (N.log2 n))) n "".

Definition String (v : Version) : string :=
  (print_number (Major v) ++ "." ++ print_number (Minor v) ++ "." ++ print_number (Patch v))%string.

End semver.


(** ** Concrete inputs

    The inputs at which the code is run in the examples below. *)

(** A phase whose payload is [payload], as handed to the executor
    constructors. *)
Definition payloadPhase (payload : string) : Phase :=
  {| ID := "/openebs-upgrade"; Executor := None; Description := fmt.Lit "";
     Data := Some {| storage.Data_Server := None;
                     storage.Data_ExecServer := None;
                     storage.Data_Master := None;
                     storage.Data_Update := None;
                     storage.Data_ElectionChange := None;
                     storage.Data_Data := payload |};
     Phases := []; Requires := [] |}.

(** Collaborators that all succeed, with a job that reports [failed] failed
    pods after the log stream has ended. *)
Definition allSucceed (failed : Z) : Collaborators unit unit :=
  {| template_Execute := fun _ _ => Ok "kind: Job";
     ioutil_WriteFile := fun _ _ => None;
     kubectl_Apply := fun _ => ("job.batch/cstor-pool-a created", None);
     hooks_NewRunner := None;
     runner_Wait := fun _ => None;
     runner_StreamLogs := fun _ => ("upgrade failed", None);
     Jobs_Get := fun _ _ => Ok {| Status_Failed := failed |} |}.


(** A runtime application whose manifest names [pkg] as its runtime
    package. *)
Definition runtimeApp (pkg : Locator) : Application :=
  {| App_Manifest :=
       {| DefaultRuntimePackage := Ok pkg;
          Dependencies_ByName := fun _ => Err (trace_NotFound "dependency not found") |} |}.

Definition planet (version : string) : Locator :=
  {| Locator_Repository := "gravitational.io";
     Locator_Name := "planet";
     Locator_Version := version |}.

(** A package service with two runtime packages: the installed one carries no
    etcd version label, the update carries etcd 3.3.11. *)
Definition examplePackages (locator : Locator) : result PackageManifest :=
  if String.eqb (Locator_Version locator) "5.0.0"
  then Ok {| Labels := [ {| Label_Name := "purpose"; Label_Value := "runtime" |} ] |}
  else if String.eqb (Locator_Version locator) "5.5.0"
  then Ok {| Labels := [ {| Label_Name := "purpose"; Label_Value := "runtime" |};
                         {| Label_Name := "version-etcd"; Label_Value := "v3.3.11" |} ] |}
  else Err (trace_NotFound "package not found").

(** An upgrade from the one to the other with no links and no roles. *)
Definition exampleConfig : planConfig unit unit unit :=
  {| links := [];
     trustedClusters := [];
     roles := [];
     installedRuntime := runtimeApp (planet "5.0.0");
     updateRuntime := runtimeApp (planet "5.5.0");
     packageService := examplePackages |}.

Definition master1 : storage.Server :=
  {| storage.Hostname := "node-1"; storage.AdvertiseIP := "10.0.0.1" |}.
Definition master2 : storage.Server :=
  {| storage.Hostname := "node-2"; storage.AdvertiseIP := "10.0.0.2" |}.

(** No role needs migrating. *)
Definition neverMigrateRoles (roles : list unit) : bool := false.

(** The output of a discovery query: one line per resource. *)
Definition lines (l : list string) : string :=
  String.concat (String newline EmptyString) l.

(** Two pools and two volumes are running. *)
Definition twoPoolsTwoVolumes : Discovery :=
  {| pools_out := lines ["pool-a 1.7.0"; "pool-b 1.7.0"]%string;
     pools_err := None;
     volumes_out := lines ["pvc-1 1.7.0"; "pvc-2 1.7.0"]%string;
     volumes_err := None |}.

(** One pool is running; the volume query answers with the empty string. *)
Definition onePoolNoVolume : Discovery :=
  {| pools_out := "cstor-pool 1.7.0";
     pools_err := None;
     volumes_out := "";
     volumes_err := None |}.

(** The phase the storage upgrade phases are attached to. *)
Definition storageRoot : Phase :=
  RootPhase (group "openebs-upgrade" (fmt.Lit "Upgrade OpenEBS")).

Definition lead1 : storage.UpdateServer := {| storage.us_Server := master1 |}.

(** ** The dependency graph of a plan *)

Definition mem (r : string) (l : list string) : bool :=
  existsb (String.eqb r) l.

(** Every dependency reference of every phase of the plan is the ID of a phase
    of the plan. *)
Definition resolvedb (plan : Phase) : bool :=
  forallb (fun p => forallb (fun r => mem r (map ID (flatten plan))) (Requires p))
          (flatten plan).

(** Walking the phases in pre-order, every dependency reference is the ID of a
    phase met before: [seen] holds the IDs met so far. *)
Fixpoint backwardb (seen : list string) (l : list Phase) : bool :=
  match l with
  | [] => true
  | p :: l' => forallb (fun r => mem r seen) (Requires p) && backwardb (ID p :: seen) l'
  end.

(** The phase with ID [a] requires the phase with ID [b]. *)
Definition depends_on (plan : Phase) (a b : string) : Prop :=
  exists p, In p (flatten plan) /\ ID p = a /\ In b (Requires p).

(** No phase is reachable from itself along dependency references. *)
Definition acyclic (plan : Phase) : Prop :=
  forall a, ~ clos_trans string (depends_on plan) a a.

(** The stage of the etcd sub-plan a path belongs to, from its prefix. *)
Definition etcd_stage (id : string) : nat :=
  if String.prefix "/etcd/backup" id then 1
  else if String.prefix "/etcd/shutdown" id then 2
  else if String.prefix "/etcd/upgrade" id then 3
  else if String.prefix "/etcd/restore" id then 4
  else if String.prefix "/etcd/restart" id then 5
  else 0.

(** The node a phase targets, if any. *)
Definition target (p : Phase) : option storage.Server :=
  match Data p with
  | Some d => storage.Data_Server d
  | None => None
  end.

(** The ID, the target and the dependency references of each phase of a
    list. *)
Definition edges (l : list Phase) : list (string * option storage.Server * list string) :=
  map (fun p => (ID p, target p, Requires p)) l.

(** The first phase of the plan, in pre-order, with the given ID. *)
Definition lookup (id : string) (plan : Phase) : option Phase :=
  find (fun p => String.eqb (ID p) id) (flatten plan).

(** ** The etcd sub-plan, written out

    The tree [etcdPlan] builds, stage by stage, with every dependency
    reference spelled as a path.  [etcdPlan_tree_eq] below proves that this is
    what [etcdPlan] returns. *)

Definition backup0 : Phase := group "/etcd/backup" (fmt.Lit "Backup etcd data").
Definition shutdown0 : Phase := group "/etcd/shutdown" (fmt.Lit "Shutdown etcd cluster").
Definition upgrade0 : Phase := group "/etcd/upgrade" (fmt.Lit "Upgrade etcd servers").
Definition restart0 : Phase := group "/etcd/restart" (fmt.Lit "Restart etcd servers").

Definition backupStage (leadMaster : storage.Server)
    (otherMasters : list storage.Server) : Phase :=
  set_Phases backup0
    (map (fun s => etcdBackupNode s backup0) (leadMaster :: otherMasters)).

Definition shutdownStage (leadMaster : storage.Server)
    (otherMasters : list storage.Server) : Phase :=
  set_Phases shutdown0
    (Require (etcdShutdownNode leadMaster shutdown0 true)
             (ChildLiteral backup0 (storage.Hostname leadMaster))
     :: map (fun s => Require (etcdShutdownNode s shutdown0 false)
                              (ChildLiteral backup0 (storage.Hostname s)))
            otherMasters).

Definition upgradeStage (leadMaster : storage.Server)
    (otherMasters : list storage.Server) : Phase :=
  set_Phases upgrade0
    (map (fun s => Require (etcdUpgrade s upgrade0)
                           (ChildLiteral shutdown0 (storage.Hostname s)))
         (leadMaster :: otherMasters)).

Definition restoreStage (leadMaster : storage.Server) : Phase :=
  Require (etcdPhase "/etcd/restore" updateEtcdRestore
             (fmt.Lit "Restore etcd data from backup") (Some leadMaster) None "")
          "/etcd/upgrade".

Definition restartStage (leadMaster : storage.Server)
    (otherMasters : list storage.Server) : Phase :=
  set_Phases restart0
    (Require (etcdRestart leadMaster leadMaster restart0) "/etcd/restore"
     :: map (fun s => Require (etcdRestart s leadMaster restart0)
                              (ChildLiteral upgrade0 (storage.Hostname s)))
            otherMasters
     ++ [ etcdPhase (ChildLiteral restart0 GravityServiceName) updateEtcdRestartGravity
            (fmt.Sprint ["Restart "%string; GravityServiceName; " service"%string])
            (Some leadMaster) None "" ]).

Definition etcdPlan_tree (leadMaster : storage.Server)
    (otherMasters : list storage.Server) (currentVersion desiredVersion : string) : Phase :=
  {| ID := "/etcd";
     Executor := None;
     Description :=
       if String.eqb currentVersion ""
       then fmt.Sprintf "Upgrade etcd to %v" [desiredVersion]
       else fmt.Sprintf "Upgrade etcd %v to %v" [currentVersion; desiredVersion];
     Data := None;
     Phases := [ backupStage leadMaster otherMasters;
                 shutdownStage leadMaster otherMasters;
                 upgradeStage leadMaster otherMasters;
                 restoreStage leadMaster;
                 restartStage leadMaster otherMasters ];
     Requires := [] |}.

(** ** Notions used in the proofs *)

(** [c] is the phase of node [s] under the stage with path [stage]. *)
Definition child_for (stage : string) (c : Phase) (s : storage.Server) : Prop :=
  (forall x, targets x c = storage.Server_eqb s x) /\
  ID c = (stage ++ "/" ++ storage.Hostname s)%string.


(** A phase without children. *)
Definition leaf (p : Phase) : Prop := Phases p = [].


(** A stepdown phase is recognised by its ID, a leader-election phase by its
    executor. *)
Definition is_stepdown (p : Phase) : bool := String.eqb (ID p) "stepdown".

Definition is_election (p : Phase) : bool :=
  match Executor p with
  | Some electionStatus => true
  | _ => false
  end.

(** The election change a phase carries, if any. *)
Definition electionChange (p : Phase) : option storage.ElectionChange :=
  match Data p with
  | Some d => storage.Data_ElectionChange d
  | None => None
  end.

(** No phase of the subtree is a stepdown phase. *)
Definition quiet (p : Phase) : Prop := filter is_stepdown (flatten p) = [].

(** The opaque payload of a phase, the empty string when it has no data. *)
Definition payload (p : Phase) : string :=
  match Data p with
  | Some d => storage.Data_Data d
  | None => ""
  end.

(** ** More of the phase builder *)

Section NodeBuilders.

(** The executor names [config] and [cleanupNode], string constants declared
    elsewhere in the package. *)
Variable configExecutor : ExecutorKind.
Variable cleanupNode : ExecutorKind.

(** [config] returns phase that pulls system configuration on provided
    nodes. *)
Definition config (nodes : list storage.Server) : Phase :=
  let root := RootPhase (group "config" (fmt.Lit "Update system configuration on nodes")) in
  fold_left
    (fun root node =>
       AddParallel root
         [ {| ID := ChildLiteral root (storage.Hostname node);
              Executor := Some configExecutor;
              Description := fmt.Sprintf "Update system configuration on node %q"
                               [storage.Hostname node];
              Data := Some {| storage.Data_Server := Some node;
                              storage.Data_ExecServer := None;
                              storage.Data_Master := None;
                              storage.Data_Update := None;
                              storage.Data_ElectionChange := None;
                              storage.Data_Data := "" |};
              Phases := [];
              Requires := [] |} ])
    nodes root.

(** [cleanup]: one clean-up phase per server.  [servers] is [r.servers] of the
    plan configuration. *)
Definition cleanup (servers : list storage.UpdateServer) : Phase :=
  let root := RootPhase (group "gc" (fmt.Lit "Run cleanup tasks")) in
  fold_left
    (fun root server =>
       let node := node (storage.us_Server server) root "Clean up node %q" in
       let node :=
         {| ID := ID node;
            Executor := Some cleanupNode;
            Description := Description node;
            Data := Some {| storage.Data_Server := Some (storage.us_Server server);
                            storage.Data_ExecServer := None;
                            storage.Data_Master := None;
                            storage.Data_Update := None;
                            storage.Data_ElectionChange := None;
                            storage.Data_Data := "" |};
            Phases := Phases node;
            Requires := Requires node |} in
       AddParallel root [node])
    servers root.

End NodeBuilders.

(** [nodes]: the rolling upgrade of the regular nodes. *)
Definition nodes (leadMaster : storage.UpdateServer) (nodes : list storage.UpdateServer)
    (supportsTaints : bool) : Phase :=
  let root := RootPhase (group "nodes" (fmt.Lit "Update regular nodes")) in
  fold_left
    (fun root server =>
       let node := node (storage.us_Server server) root
                     "Update system software on node %q" in
       let node := AddSequential node
         (commonNode server leadMaster supportsTaints true noElectionChanges) in
       AddParallel root [node])
    nodes root.

(** The lookups of [shouldUpdateCoreDNS] in the cluster: the cluster role, the
    cluster role binding and the config map of CoreDNS, each with the error
    [rigging.ConvertError] makes of the API's answer ([None] when the
    resource is there). *)
Record CoreDNSLookups : Type := mkCoreDNSLookups {
  ClusterRoles_Get : option error;
  ClusterRoleBindings_Get : option error;
  ConfigMaps_Get : option error
}.

Definition shouldUpdateCoreDNS (client : CoreDNSLookups) : bool * option error :=
  match ClusterRoles_Get client with
  | Some err =>
      if trace_IsNotFound err then (true, None) else (false, Some (trace_Wrap err))
  | None =>
  match ClusterRoleBindings_Get client with
  | Some err =>
      if trace_IsNotFound err then (true, None) else (false, Some (trace_Wrap err))
  | None =>
  match ConfigMaps_Get client with
  | Some err =>
      if trace_IsNotFound err then (true, None) else (false, Some (trace_Wrap err))
  | None => (false, None)
  end end end.

(** ** The iSCSI checker ([monitoring] package) *)

(** [strings.Contains(s, substr)] *)
Fixpoint Contains (s substr : string) : bool :=
  String.prefix substr s
  || match s with
     | EmptyString => false
     | String _ s' => Contains s' substr
     end.

Definition iscsiCheckerID : string := "iscsi".

(** [dbus.UnitStatus], reduced to the unit's name. *)
Record UnitStatus : Type := mkUnitStatus {
  Unit_Name : string
}.

(** What the checker hands to the reporter: the result of
    [NewProbeFromErr(name, detail, err)], kept symbolic (the function lives
    elsewhere in the package), or a [pb.Probe] literal with status
    [pb.Probe_Failed]. *)
Inductive Probe : Type :=
| NewProbeFromErr (name detail : string) (err : error)
| FailedProbe (checker : string) (detail : fmt.text).

Section ISCSI.

(** [*dbus.Conn]; a nil connection is [None]. *)
Variable Conn : Type.

(** systemd over D-Bus: what [dbus.New()] returns, and what [ListUnits] and
    [Close] do on a connection, which may be nil. *)
Record Systemd : Type := mkSystemd {
  dbus_New : option Conn * option error;
  ListUnits : option Conn -> outcome (list UnitStatus * option error);
  Close : option Conn -> outcome unit
}.

(** Does the unit conflict with the cluster's own iSCSI daemon? *)
Definition conflicting (unit : UnitStatus) : bool :=
  Contains (Unit_Name unit) "iscsid.service" || Contains (Unit_Name unit) "iscsid.socket".

(** [iscsiChecker.Check]: the probes added to the reporter, in order, and how
    the call ends.  [conn.Close()] is deferred: it runs when the function
    leaves, also by a panic, and a panic of its own is the one that
    propagates.  The dump of the unit to standard output is not modelled. *)
Definition Check (w : Systemd) : list Probe * outcome unit :=
  let '(conn, err) := dbus_New w in
  let reporter :=
    match err with
    | Some err => [NewProbeFromErr iscsiCheckerID "failed to connect to dbus" (trace_Wrap err)]
    | None => []
    end in
  let '(reporter, body) :=
    match ListUnits w conn with
    | Panics reason => (reporter, Panics reason)
    | Returns (units, err) =>
        let reporter :=
          match err with
          | Some err =>
              reporter ++ [NewProbeFromErr iscsiCheckerID "failed to query systemd units"
                             (trace_Wrap err)]
          | None => reporter
          end in
        let reporter :=
          fold_left
            (fun reporter unit =>
               if conflicting unit
               then reporter ++
                    [FailedProbe iscsiCheckerID
                       (fmt.Sprintf
                          "Found conflicting program: %v. Please disable this service and try again."
                          [Unit_Name unit])]
               else reporter)
            units reporter in
        (reporter, Returns tt)
    end in
  match Close w conn with
  | Panics reason => (reporter, Panics reason)
  | Returns _ => (reporter, body)
  end.

End ISCSI.

Arguments dbus_New {Conn} _.
Arguments ListUnits {Conn} _ _.
Arguments Close {Conn} _ _.
Arguments mkSystemd {Conn} _ _ _.
Arguments Check {Conn} w.

(** ** Notions and inputs for the properties of the rest of the code *)

(** The first lookup that failed, if any. *)
Fixpoint firstFailure (l : list (option error)) : option error :=
  match l with
  | [] => None
  | Some err :: _ => Some err
  | None :: rest => firstFailure rest
  end.

(** Does the byte occur in the string? *)
Fixpoint has_byte (c : ascii) (s : string) : bool :=
  match s with
  | EmptyString => false
  | String a s' => Ascii.eqb a c || has_byte c s'
  end.

(** The payload the executors expect: name, from-version and to-version
    joined by single spaces. *)
Definition upgradePayload (name fromVersion toVersion : string) : string :=
  (name ++ String space (fromVersion ++ String space toVersion))%string.

(** The probe reported for a conflicting unit. *)
Definition conflictProbe (unit : UnitStatus) : Probe :=
  FailedProbe iscsiCheckerID
    (fmt.Sprintf "Found conflicting program: %v. Please disable this service and try again."
       [Unit_Name unit]).

(** A host where systemd answers and runs the iSCSI daemon next to sshd. *)
Definition hostWithIscsid : Systemd nat :=
  {| dbus_New := (Some 1, None);
     ListUnits := fun _ =>
       Returns ([ {| Unit_Name := "sshd.service" |};
                  {| Unit_Name := "iscsid.service" |};
                  {| Unit_Name := "iscsid.socket" |} ], None);
     Close := fun _ => Returns tt |}.

(** A host where D-Bus cannot be reached; using the nil connection panics. *)
Definition hostWithoutDbus : Systemd nat :=
  {| dbus_New := (None, Some (errors_New "dial unix /var/run/dbus/system_bus_socket"));
     ListUnits := fun conn =>
       match conn with
       | Some _ => Returns ([], None)
       | None => Panics "nil pointer dereference"
       end;
     Close := fun _ => Returns tt |}.

(** Two pools and one volume, each line a name and a version as the discovery
    format has them. *)
Definition twoPoolsOneVolume : Discovery :=
  {| pools_out := lines ["pool-a 1.7.0"; "pool-b 1.7.0"]%string;
     pools_err := None;
     volumes_out := "pvc-1 1.7.0";
     volumes_err := None |}.

(** The update's runtime package is not in the package service. *)
Definition configWithoutUpdate : planConfig unit unit unit :=
  {| links := [];
     trustedClusters := [];
     roles := [];
     installedRuntime := runtimeApp (planet "5.0.0");
     updateRuntime := runtimeApp (planet "9.9.9");
     packageService := examplePackages |}.

(** The installed application names no runtime package, and has no legacy
    one either. *)
Definition configWithoutRuntime : planConfig unit unit unit :=
  {| links := [];
     trustedClusters := [];
     roles := [];
     installedRuntime :=
       {| App_Manifest :=
            {| DefaultRuntimePackage := Err (trace_NotFound "no runtime package");
               Dependencies_ByName := fun _ => Err (errors_New "dependency not found") |} |};
     updateRuntime := runtimeApp (planet "5.5.0");
     packageService := examplePackages |}.

Definition worker1 : storage.UpdateServer :=
  {| storage.us_Server := {| storage.Hostname := "node-4"; storage.AdvertiseIP := "10.0.0.4" |} |}.
Definition worker2 : storage.UpdateServer :=
  {| storage.us_Server := {| storage.Hostname := "node-5"; storage.AdvertiseIP := "10.0.0.5" |} |}.
Definition lead2 : storage.UpdateServer := {| storage.us_Server := master2 |}.

(** The node phase [masters] builds for a master other than the lead, before
    it is attached: the common-node sequence under /masters/<hostname>, with
    leader election enabled again on the node. *)
Definition otherMasterNode (leadMaster : storage.UpdateServer) (supportsTaints : bool)
    (server : storage.UpdateServer) : Phase :=
  AddSequential
    (node (storage.us_Server server) (group "/masters" (fmt.Lit "Update master nodes"))
       "Update system software on master node %q")
    (commonNode server leadMaster supportsTaints true
       {| id := "";
          description := fmt.Sprintf "Enable leader election on node %q"
                           [us_Hostname server];
          enable := serversToStorage [server];
          disable := [] |}).

(** The node phases of the other masters, each attached after the phase with
    ID [prev]. *)
Fixpoint mastersChain (leadMaster : storage.UpdateServer) (supportsTaints : bool)
    (prev : string) (servers : list storage.UpdateServer) : list Phase :=
  match servers with
  | [] => []
  | server :: rest =>
      Require (otherMasterNode leadMaster supportsTaints server) prev
      :: mastersChain leadMaster supportsTaints
           (ID (otherMasterNode leadMaster supportsTaints server)) rest
  end.

(** The path of a master's node phase. *)
Definition masterPath (server : storage.UpdateServer) : string :=
  ("/masters/" ++ us_Hostname server)%string.

(** The election changes of the leader-election phases among the children of
    a node phase, in order. *)
Definition electionChangesOf (n : Phase) : list (option storage.ElectionChange) :=
  map electionChange (filter is_election (Phases n)).
(** * Properties *)

(** ** Component-upgrade executors *)

(** On every path on which the pool constructor returns, its error is nil. *)
Lemma NewPhaseUpgradePool_error_nil (phase : Phase) (x : PhaseUpgradePool)
    (e : option error) :
  NewPhaseUpgradePool phase = Returns (x, e) -> e = None.
Proof.
  unfold NewPhaseUpgradePool, bind_outcome.
  destruct (deref (Data phase)); [|discriminate].
  destruct (index _ 0); [|discriminate].
  destruct (index _ 1); [|discriminate].
  destruct (index _ 2); [|discriminate].
  intros H; inversion H; reflexivity.
Qed.

(** On every path on which the volume constructor returns, its error is nil. *)
Lemma NewPhaseUpgradeVolume_error_nil (phase : Phase) (x : PhaseUpgradeVolume)
    (e : option error) :
  NewPhaseUpgradeVolume phase = Returns (x, e) -> e = None.
Proof.
  unfold NewPhaseUpgradeVolume, bind_outcome.
  destruct (deref (Data phase)); [|discriminate].
  destruct (index _ 0); [|discriminate].
  destruct (index _ 1); [|discriminate].
  destruct (index _ 2); [|discriminate].
  intros H; inversion H; reflexivity.
Qed.

(** What the pool constructor does on every payload: with at least three
    space-separated fields it returns the first three and a nil error, with
    fewer it panics on an index. *)
Lemma NewPhaseUpgradePool_fields (payload : string) :
  NewPhaseUpgradePool (payloadPhase payload)
  = match strings.Split payload space with
    | pool :: fromVersion :: toVersion :: _ =>
        Returns ({| Pool := pool; Pool_FromVersion := fromVersion;
                    Pool_ToVersion := toVersion |}, None)
    | _ => Panics "index out of range"
    end.
Proof.
  unfold NewPhaseUpgradePool, payloadPhase. cbn [Data deref bind_outcome storage.Data_Data].
  destruct (strings.Split payload space) as [| a [| b [| c l]]]; reflexivity.
Qed.

(** The same for the volume constructor. *)
Lemma NewPhaseUpgradeVolume_fields (payload : string) :
  NewPhaseUpgradeVolume (payloadPhase payload)
  = match strings.Split payload space with
    | volume :: fromVersion :: toVersion :: _ =>
        Returns ({| Volume := volume; Volume_FromVersion := fromVersion;
                    Volume_ToVersion := toVersion |}, None)
    | _ => Panics "index out of range"
    end.
Proof.
  unfold NewPhaseUpgradeVolume, payloadPhase. cbn [Data deref bind_outcome storage.Data_Data].
  destruct (strings.Split payload space) as [| a [| b [| c l]]]; reflexivity.
Qed.

(** C6.  The constructors do not check the number of tokens.  On the payload
    the builder itself stores for a discovered resource (name and version, two
    tokens) both constructors panic on the third index instead of returning an
    error.  On a payload of four tokens they return an executor made of the
    first three with a nil error, dropping the fourth.  Fields are cut at
    single spaces: with two spaces after the name the from-version is the
    empty string. *)
Theorem NewPhaseUpgrade_token_count_unchecked :
  NewPhaseUpgradePool (payloadPhase "cstor-pool 1.7.0") = Panics "index out of range" /\
  NewPhaseUpgradeVolume (payloadPhase "pvc-b363b688 1.7.0") = Panics "index out of range" /\
  NewPhaseUpgradePool (payloadPhase "cstor-pool 1.7.0 2.2.0 extra")
    = Returns ({| Pool := "cstor-pool"; Pool_FromVersion := "1.7.0";
                  Pool_ToVersion := "2.2.0" |}, None) /\
  NewPhaseUpgradeVolume (payloadPhase "pvc-b363b688 1.7.0 2.2.0 extra")
    = Returns ({| Volume := "pvc-b363b688"; Volume_FromVersion := "1.7.0";
                  Volume_ToVersion := "2.2.0" |}, None) /\
  NewPhaseUpgradePool (payloadPhase "cstor-pool  1.7.0 2.2.0")
    = Returns ({| Pool := "cstor-pool"; Pool_FromVersion := "";
                  Pool_ToVersion := "1.7.0" |}, None).
Proof. repeat split; reflexivity. Qed.

Section UpgradeJobProperties.

Variables Template TemplateData : Type.
Variable w : Collaborators Template TemplateData.
Variable template : Template.
Variable templateData : TemplateData.
Variable jobName : string.

Let jobFile : string := "openebs_data_plane_component_upgrade.yaml".
Let jobRef : JobRef := {| JobRef_Name := jobName; JobRef_Namespace := k8sNamespace |}.

(** X22.  In the [phases] package: once the manifest is rendered, written and
    applied, the runner is created and the log stream has returned without
    error, [execUpgradeJob] fetches the job again: a job with a nonzero
    failed-pod count makes it return the "failed pods" error, and it returns
    a nil error exactly when the fetch succeeds and the failed-pod count is
    zero. *)
Theorem execUpgradeJob_failed_pods_fail
    (buf out logs : string)
    (Hrender : template_Execute w template templateData = Ok buf)
    (Hwrite : ioutil_WriteFile w jobFile buf = None)
    (Happly : kubectl_Apply w jobFile = (out, None))
    (Hrunner : hooks_NewRunner w = None)
    (Hstream : runner_StreamLogs w jobRef = (logs, None)) :
  (forall job, Jobs_Get w k8sNamespace jobName = Ok job ->
               Status_Failed job <> 0%Z ->
               execUpgradeJob w template templateData jobName
               = (logs, Some (trace_Wrap (errors_New "upgrade job has failed pods")))) /\
  (snd (execUpgradeJob w template templateData jobName) = None <->
   exists job, Jobs_Get w k8sNamespace jobName = Ok job /\ Status_Failed job = 0%Z).
Proof.
  subst jobFile jobRef.
  unfold execUpgradeJob.
  rewrite Hrender, Hwrite, Happly, Hrunner, Hstream. cbn [JobRef_Name JobRef_Namespace].
  split.
  - intros job Hget Hfailed. rewrite Hget.
    destruct (Z.eqb_spec (Status_Failed job) 0); [contradiction | reflexivity].
  - destruct (Jobs_Get w k8sNamespace jobName) as [job | err]; cbn.
    + destruct (Z.eqb_spec (Status_Failed job) 0); cbn; split.
      * intros _. exists job. split; [reflexivity | assumption].
      * reflexivity.
      * discriminate.
      * intros [job' [Heq Hz]]. inversion Heq; subst. contradiction.
    + split; [discriminate | intros [job [Heq _]]; discriminate].
Qed.

(** The earlier revision kept next to the vendored checker returns the logs
    and a nil error as soon as the wait and the log stream succeed, whatever
    the job's failed-pod count. *)
Lemma execUpgradeJob_earlier_trusts_wait
    (buf out logs : string)
    (Hrender : template_Execute w template templateData = Ok buf)
    (Hwrite : ioutil_WriteFile w jobFile buf = None)
    (Happly : kubectl_Apply w jobFile = (out, None))
    (Hrunner : hooks_NewRunner w = None)
    (Hwait : runner_Wait w {| JobRef_Name := jobName; JobRef_Namespace := "openebs" |} = None)
    (Hstream : runner_StreamLogs w {| JobRef_Name := jobName; JobRef_Namespace := "openebs" |}
               = (logs, None)) :
  execUpgradeJob_earlier w template templateData jobName = (logs, None).
Proof.
  subst jobFile. unfold execUpgradeJob_earlier.
  rewrite Hrender, Hwrite, Happly, Hrunner, Hwait, Hstream. reflexivity.
Qed.

End UpgradeJobProperties.

(** A job with one failed pod after a clean log stream: the phase fails. *)
Lemma execUpgradeJob_failed_pods_fail_witness :
  execUpgradeJob (allSucceed 1) tt tt "cstor-pool-a"
  = ("upgrade failed", Some (trace_Wrap (errors_New "upgrade job has failed pods"))).
Proof.
  apply (proj1 (execUpgradeJob_failed_pods_fail unit unit (allSucceed 1) tt tt
                  "cstor-pool-a" "kind: Job" "job.batch/cstor-pool-a created"
                  "upgrade failed" eq_refl eq_refl eq_refl eq_refl eq_refl)
               {| Status_Failed := 1 |}).
  - reflexivity.
  - discriminate.
Defined.

(** C9.  The two copies of [execUpgradeJob] on a job that ends with one failed
    pod after a wait and a log stream that both returned without error: the
    copy of the [phases] package fetches the job and returns the "failed pods"
    error; the earlier copy kept next to the vendored checker returns the logs
    with a nil error, so there the wait alone makes the phase a success. *)
Theorem execUpgradeJob_earlier_succeeds_with_failed_pods :
  let jobRef := {| JobRef_Name := "cstor-pool-a"; JobRef_Namespace := "openebs" |} in
  runner_Wait (allSucceed 1) jobRef = None /\
  runner_StreamLogs (allSucceed 1) jobRef = ("upgrade failed", None) /\
  Jobs_Get (allSucceed 1) "openebs" "cstor-pool-a" = Ok {| Status_Failed := 1 |} /\
  execUpgradeJob (allSucceed 1) tt tt "cstor-pool-a"
  = ("upgrade failed", Some (trace_Wrap (errors_New "upgrade job has failed pods"))) /\
  execUpgradeJob_earlier (allSucceed 1) tt tt "cstor-pool-a" = ("upgrade failed", None).
Proof. repeat split. Qed.

(** ** The common-node sequence *)

(** C8.  The executors of the common-node list are, in this order: drain,
    system upgrade, the election change if one is to be added, health, taint
    if taints are supported, uncordon, the endpoint wait if requested, untaint
    if taints are supported.  So the taint and untaint phases are there exactly
    when taints are supported, the endpoint wait exactly when requested, and
    the election phase exactly when the election change enables or disables
    some server. *)
Theorem commonNode_sequence (server leadMaster : storage.UpdateServer)
    (supportsTaints waitsForEndpoints : bool) (ec : electionChanges) :
  let kinds := map Executor (commonNode server leadMaster supportsTaints waitsForEndpoints ec) in
  kinds = [Some drainNode; Some updateSystem]
          ++ (if shouldAddPhase ec then [Some electionStatus] else [])
          ++ [Some nodeHealth]
          ++ (if supportsTaints then [Some taintNode] else [])
          ++ [Some uncordonNode]
          ++ (if waitsForEndpoints then [Some endpoints] else [])
          ++ (if supportsTaints then [Some untaintNode] else []) /\
  (In (Some taintNode) kinds <-> supportsTaints = true) /\
  (In (Some untaintNode) kinds <-> supportsTaints = true) /\
  (In (Some endpoints) kinds <-> waitsForEndpoints = true) /\
  (In (Some electionStatus) kinds <-> enable ec <> [] \/ disable ec <> []).
Proof.
  assert (Hadd : shouldAddPhase ec = true <-> enable ec <> [] \/ disable ec <> []).
  { unfold shouldAddPhase.
    destruct (enable ec), (disable ec); cbn; split; intros H;
      try reflexivity; try discriminate;
      try (left; discriminate); try (right; discriminate).
    destruct H as [H | H]; contradiction. }
  unfold commonNode.
  destruct (shouldAddPhase ec), supportsTaints, waitsForEndpoints; cbn;
    (split; [reflexivity |]);
    repeat match goal with
           | |- _ /\ _ => split
           | |- _ <-> _ => split; intros H
           end;
    first [ reflexivity
          | discriminate H
          | apply Hadd; reflexivity
          | apply Hadd in H; discriminate H
          | tauto
          | repeat (destruct H as [H | H]; try discriminate H); contradiction ].
Qed.

(** ** Migration *)

(** C3.  With no link to convert and no role to reformat, [migration] returns
    a phase, not nil, although its documentation says that it returns nil
    when there are no migrations to perform: the label refresh is appended
    before the test for "no migrations needed", which can then never hold. *)
Theorem migration_without_triggers_not_nil :
  negb (Nat.eqb (length (links exampleConfig)) 0)
    && Nat.eqb (length (trustedClusters exampleConfig)) 0 = false /\
  neverMigrateRoles (roles exampleConfig) = false /\
  migration neverMigrateRoles exampleConfig master1 <> None /\
  option_map (fun root => map ID (Phases root))
    (migration neverMigrateRoles exampleConfig master1)
  = Some ["/migration/labels"%string].
Proof. repeat split. discriminate. Qed.

(** X23.  The phase [migration] returns is /migration; its children are the
    links sub-step when there are links and no trusted clusters, then the
    label refresh, on every input, then the roles sub-step when the roles
    need migrating; they are attached in parallel, with no dependency between
    them. *)
Theorem migration_always_refreshes_labels
    (Link TrustedCluster Role : Type) (NeedMigrateRoles : list Role -> bool)
    (r : planConfig Link TrustedCluster Role) (leadMaster : storage.Server) :
  exists root,
    migration NeedMigrateRoles r leadMaster = Some root /\
    ID root = "/migration" /\
    map ID (Phases root)
    = (if negb (Nat.eqb (length (links r)) 0) && Nat.eqb (length (trustedClusters r)) 0
       then ["/migration/links"] else [])
      ++ ["/migration/labels"]
      ++ (if NeedMigrateRoles (roles r) then ["/migration/roles"] else []) /\
    map Executor (Phases root)
    = (if negb (Nat.eqb (length (links r)) 0) && Nat.eqb (length (trustedClusters r)) 0
       then [Some migrateLinks] else [])
      ++ [Some updateLabels]
      ++ (if NeedMigrateRoles (roles r) then [Some migrateRoles] else []) /\
    Forall (fun p => Requires p = []) (Phases root).
Proof.
  unfold migration.
  destruct (negb (Nat.eqb (length (links r)) 0) && Nat.eqb (length (trustedClusters r)) 0),
           (NeedMigrateRoles (roles r)); cbn;
    eexists; (split; [reflexivity |]); cbn; repeat split; repeat constructor.
Qed.

(** ** The etcd version check *)

Section ShouldUpdateEtcd.

Variables Link TrustedCluster Role Version : Type.
Variable NewVersion : string -> result Version.
Variable Compare : Version -> Version -> Z.
Variable VersionString : Version -> string.
Variable legacyName : string.

(** A manifest without the label makes the label loop end in a not-found
    error. *)
Lemma getEtcdVersion_labels_absent (searchLabel : string) (labels : list Label) :
  (forall l, In l labels -> Label_Name l <> searchLabel) ->
  getEtcdVersion_labels NewVersion searchLabel labels
  = Err (trace_NotFound "package manifest for %q does not have label %v").
Proof.
  induction labels as [| l rest IH]; intros Hno; cbn.
  - reflexivity.
  - destruct (String.eqb_spec (Label_Name l) searchLabel) as [Heq | _].
    + exfalso. apply (Hno l); [left; reflexivity | exact Heq].
    + apply IH. intros l' Hin. apply Hno. right. exact Hin.
Qed.

(** C10 (amended).  Let the installed runtime package be found, directly or as
    the legacy dependency, and let the update's runtime package carry a
    readable etcd version.  If the manifest of the installed package has no
    [version-etcd] label, [shouldUpdateEtcd] answers true, with an empty
    installed version and no error.  If it has one, the answer is true exactly
    when the installed version compares below the update's. *)
Theorem shouldUpdateEtcd_missing_label_or_older
    (p : planConfig Link TrustedCluster Role)
    (installedPkg updatePkg : Locator) (updateVersion : Version)
    (Hinstalled :
       DefaultRuntimePackage (App_Manifest (installedRuntime p)) = Ok installedPkg \/
       exists e, DefaultRuntimePackage (App_Manifest (installedRuntime p)) = Err e /\
                 trace_IsNotFound e = true /\
                 Dependencies_ByName (App_Manifest (installedRuntime p)) legacyName
                 = Ok installedPkg)
    (Hupdate : DefaultRuntimePackage (App_Manifest (updateRuntime p)) = Ok updatePkg)
    (Hversion : getEtcdVersion NewVersion "version-etcd" updatePkg (packageService p)
                = Ok updateVersion) :
  (forall manifest,
      packageService p installedPkg = Ok manifest ->
      (forall l, In l (Labels manifest) -> Label_Name l <> "version-etcd") ->
      shouldUpdateEtcd NewVersion Compare VersionString legacyName p
      = (true, "", VersionString updateVersion, None)) /\
  (forall installedVersion,
      getEtcdVersion NewVersion "version-etcd" installedPkg (packageService p)
      = Ok installedVersion ->
      shouldUpdateEtcd NewVersion Compare VersionString legacyName p
      = ((Compare installedVersion updateVersion <? 0)%Z,
         VersionString installedVersion, VersionString updateVersion, None)).
Proof.
  assert (Hstep : forall res,
    getEtcdVersion NewVersion "version-etcd" installedPkg (packageService p) = res ->
    shouldUpdateEtcd NewVersion Compare VersionString legacyName p
    = match res with
      | Err err =>
          if negb (trace_IsNotFound err) then (false, "", "", Some (trace_Wrap err))
          else (true, "", VersionString updateVersion, None)
      | Ok v => ((Compare v updateVersion <? 0)%Z, VersionString v,
                 VersionString updateVersion, None)
      end).
  { intros res Hres. unfold shouldUpdateEtcd.
    destruct Hinstalled as [Hd | [e [Hd [Hnf Hby]]]].
    - rewrite Hd, Hres, Hupdate, Hversion.
      destruct res as [v | err]; [| reflexivity].
      destruct (Compare v updateVersion <? 0)%Z; reflexivity.
    - rewrite Hd, Hnf, Hby, Hres, Hupdate, Hversion. cbn.
      destruct res as [v | err]; [| reflexivity].
      destruct (Compare v updateVersion <? 0)%Z; reflexivity. }
  split.
  - intros manifest Hm Hno.
    rewrite (Hstep (Err (trace_NotFound "package manifest for %q does not have label %v"))).
    + reflexivity.
    + unfold getEtcdVersion. rewrite Hm.
      apply getEtcdVersion_labels_absent. exact Hno.
  - intros installedVersion Hiv. rewrite (Hstep _ Hiv). reflexivity.
Qed.

End ShouldUpdateEtcd.

(** The installed planet 5.0.0 has no etcd label, the update carries etcd
    3.3.11: an upgrade is needed. *)
Lemma shouldUpdateEtcd_missing_label_or_older_witness :
  shouldUpdateEtcd semver.NewVersion semver.Compare semver.String "planet-master"
    exampleConfig
  = (true, "", "3.3.11", None).
Proof.
  refine (proj1 (shouldUpdateEtcd_missing_label_or_older unit unit unit semver.Version
                   semver.NewVersion semver.Compare semver.String "planet-master"
                   exampleConfig (planet "5.0.0") (planet "5.5.0")
                   (semver.mkVersion 3 3 11) (or_introl eq_refl) eq_refl eq_refl)
                {| Labels := [ {| Label_Name := "purpose"; Label_Value := "runtime" |} ] |}
                eq_refl _).
  intros l [Hl | []]. subst l. discriminate.
Defined.

(** C10 (as stated).  The installed planet 5.0.0 is found and its manifest has
    no etcd label, but the package service does not know the update's runtime
    package: [shouldUpdateEtcd] answers false, with an error. *)
Lemma shouldUpdateEtcd_missing_label_update_unknown :
  DefaultRuntimePackage (App_Manifest (installedRuntime configWithoutUpdate))
  = Ok (planet "5.0.0") /\
  packageService configWithoutUpdate (planet "5.0.0")
  = Ok {| Labels := [ {| Label_Name := "purpose"; Label_Value := "runtime" |} ] |} /\
  (exists err,
     getEtcdVersion semver.NewVersion "version-etcd" (planet "5.0.0")
       (packageService configWithoutUpdate) = Err err /\
     trace_IsNotFound err = true) /\
  fst (fst (fst (shouldUpdateEtcd semver.NewVersion semver.Compare semver.String
                   "planet-master" configWithoutUpdate))) = false /\
  snd (shouldUpdateEtcd semver.NewVersion semver.Compare semver.String
         "planet-master" configWithoutUpdate)
  = Some (trace_Wrap (trace_Wrap (trace_NotFound "package not found"))).
Proof.
  split; [reflexivity |]. split; [reflexivity |].
  split; [eexists; split; reflexivity |].
  split; reflexivity.
Qed.

(** ** Storage-component discovery *)

(** Attaching one phase sequentially appends it, with at most one more
    dependency reference and nothing else changed. *)
Lemma AddSequential_one (root x : Phase) :
  exists x', AddSequential root [x] = set_Phases root (Phases root ++ [x']) /\
             ID x' = ID x /\ Executor x' = Executor x /\ payload x' = payload x.
Proof.
  unfold AddSequential. cbn [fold_left].
  destruct (last_error (Phases root)) as [prev |].
  - exists (Require x (ID prev)). repeat split.
  - exists x. repeat split.
Qed.

(** A loop that attaches one phase per item appends as many phases as there
    are items, in order. *)
Lemma attach_each (step : Phase -> string -> Phase) (k : ExecutorKind)
    (Hstep : forall r x, exists x',
        step r x = set_Phases r (Phases r ++ [x']) /\
        payload x' = x /\ Executor x' = Some k)
    (l : list string) (root : Phase) :
  exists attached,
    fold_left step l root = set_Phases root (Phases root ++ attached) /\
    map payload attached = l /\
    map Executor attached = map (fun _ => Some k) attached.
Proof.
  revert root. induction l as [| x l IH]; intros root; cbn [fold_left].
  - exists []. rewrite app_nil_r. destruct root; repeat split.
  - destruct (Hstep root x) as [x' [Hx [Hpay Hex]]]. rewrite Hx.
    destruct (IH (set_Phases root (Phases root ++ [x']))) as [attached [Hfold [Hpays Hexs]]].
    rewrite Hfold. exists (x' :: attached).
    cbn [set_Phases Phases ID Executor Description Data Requires map].
    rewrite <- app_assoc, Hpay, Hpays, Hex, Hexs. repeat split.
Qed.

(** [strings.Split] never returns an empty slice. *)
Lemma Split_not_nil (s : string) (sep : ascii) : strings.Split s sep <> [].
Proof.
  induction s as [| c s IH]; cbn.
  - discriminate.
  - destruct (Ascii.eqb c sep); [discriminate |].
    destruct (strings.Split s sep); [contradiction | discriminate].
Qed.

(** [len(s) == 0] holds of the empty string only. *)
Lemma length_zero_empty (s : string) : Nat.eqb (String.length s) 0 = true <-> s = "".
Proof.
  destruct s; cbn; split; intros H; try reflexivity; discriminate H.
Qed.

(** C7 (amended).  When the discovery query answers with the empty string for
    the pools or for the volumes, [openEBSUpgrade] returns an error.  If it is
    the pool answer that is empty, the phase the caller passed in is left as
    it was.  If the pool query answered and only the volume answer is empty,
    the pool upgrade phases, one per line of the pool answer, have already
    been attached to the caller's phase and stay there. *)
Theorem openEBSUpgrade_empty_discovery_fails (d : Discovery)
    (leadMaster : storage.UpdateServer) (root : Phase)
    (Hempty : pools_out d = "" \/ volumes_out d = "") :
  (exists err, snd (openEBSUpgrade d leadMaster root) = Some err) /\
  (pools_out d = "" -> fst (openEBSUpgrade d leadMaster root) = root) /\
  (pools_err d = None -> pools_out d <> "" ->
   exists attached,
     attached <> [] /\
     fst (openEBSUpgrade d leadMaster root) = set_Phases root (Phases root ++ attached) /\
     map payload attached = strings.Split (pools_out d) newline /\
     map Executor attached = map (fun _ => Some updateOpenEBSPool) attached).
Proof.
  split; [| split].
  - unfold openEBSUpgrade.
    destruct (pools_err d) as [e |]; [eexists; reflexivity |].
    destruct (Nat.eqb (String.length (pools_out d)) 0) eqn:Hp; [eexists; reflexivity |].
    destruct (volumes_err d) as [e |]; [eexists; reflexivity |].
    destruct (Nat.eqb (String.length (volumes_out d)) 0) eqn:Hv; [eexists; reflexivity |].
    exfalso. destruct Hempty as [H | H]; apply length_zero_empty in H; congruence.
  - intros H. unfold openEBSUpgrade.
    destruct (pools_err d); [reflexivity |]. rewrite H. reflexivity.
  - intros Herr Hne.
    assert (Hv : volumes_out d = "") by (destruct Hempty; [contradiction | assumption]).
    unfold openEBSUpgrade. rewrite Herr.
    destruct (Nat.eqb (String.length (pools_out d)) 0) eqn:Hp;
      [apply length_zero_empty in Hp; contradiction |].
    match goal with
    | |- context [fold_left ?f (strings.Split (pools_out d) newline) root] =>
        destruct (attach_each f updateOpenEBSPool) with
          (l := strings.Split (pools_out d) newline) (root := root)
          as [attached [Hfold [Hpays Hexs]]]
    end.
    { intros r x. edestruct AddSequential_one as [x' [Hx [_ [Hex Hpay]]]].
      exists x'. split; [exact Hx |]. split; [exact Hpay | exact Hex]. }
    exists attached. split.
    { intros ->. symmetry in Hpays. exact (Split_not_nil _ _ Hpays). }
    split; [| split; assumption].
    rewrite Hfold.
    destruct (volumes_err d); [reflexivity |].
    rewrite Hv. reflexivity.
Qed.

(** One pool, and an empty answer for the volumes. *)
Lemma openEBSUpgrade_empty_discovery_fails_witness :
  (exists err, snd (openEBSUpgrade onePoolNoVolume lead1 storageRoot) = Some err) /\
  (pools_out onePoolNoVolume = "" ->
   fst (openEBSUpgrade onePoolNoVolume lead1 storageRoot) = storageRoot) /\
  (pools_err onePoolNoVolume = None -> pools_out onePoolNoVolume <> "" ->
   exists attached,
     attached <> [] /\
     fst (openEBSUpgrade onePoolNoVolume lead1 storageRoot)
     = set_Phases storageRoot (Phases storageRoot ++ attached) /\
     map payload attached = strings.Split (pools_out onePoolNoVolume) newline /\
     map Executor attached = map (fun _ => Some updateOpenEBSPool) attached).
Proof.
  apply (openEBSUpgrade_empty_discovery_fails onePoolNoVolume lead1 storageRoot).
  right. reflexivity.
Defined.

(** A nil error means that both queries answered and neither answer was
    empty. *)
Lemma openEBSUpgrade_success_needs_both (d : Discovery)
    (leadMaster : storage.UpdateServer) (root : Phase) :
  snd (openEBSUpgrade d leadMaster root) = None ->
  pools_err d = None /\ pools_out d <> "" /\
  volumes_err d = None /\ volumes_out d <> "".
Proof.
  unfold openEBSUpgrade.
  destruct (pools_err d) as [e |]; [discriminate |].
  destruct (Nat.eqb (String.length (pools_out d)) 0) eqn:Hp; [discriminate |].
  destruct (volumes_err d) as [e |]; [discriminate |].
  destruct (Nat.eqb (String.length (volumes_out d)) 0) eqn:Hv; [discriminate |].
  intros _. repeat split.
  - intros H. apply length_zero_empty in H. congruence.
  - intros H. apply length_zero_empty in H. congruence.
Qed.

(** C7 (as stated).  One pool is discovered and the volume query answers with
    the empty string: the error is returned, and the phase the caller passed
    in, which had no children, now carries the pool upgrade phase. *)
Lemma openEBSUpgrade_no_volumes_keeps_pools :
  snd (openEBSUpgrade onePoolNoVolume lead1 storageRoot)
  = Some (trace_Wrap (errors_New "failed to get pool info")) /\
  Phases storageRoot = [] /\
  map ID (Phases (fst (openEBSUpgrade onePoolNoVolume lead1 storageRoot)))
  = ["openebs-upgrade-pool"]%string /\
  fst (openEBSUpgrade onePoolNoVolume lead1 storageRoot) <> storageRoot.
Proof. repeat split. discriminate. Qed.

(** C4.  With two pools and two volumes discovered, the two pool phases are
    attached under the same parent with the same ID, and so are the two
    volume phases: the IDs of the children are not pairwise distinct. *)
Theorem openEBSUpgrade_duplicate_child_ids :
  snd (openEBSUpgrade twoPoolsTwoVolumes lead1 storageRoot) = None /\
  map ID (Phases (fst (openEBSUpgrade twoPoolsTwoVolumes lead1 storageRoot)))
  = [ "openebs-upgrade-pool"; "openebs-upgrade-pool";
      "/openebs-upgrade/openebs-upgrade-volume";
      "/openebs-upgrade/openebs-upgrade-volume" ]%string /\
  ~ NoDup (map ID (Phases (fst (openEBSUpgrade twoPoolsTwoVolumes lead1 storageRoot)))).
Proof.
  split; [reflexivity |]. split; [reflexivity |].
  intros H. inversion H as [| x l Hnotin _]; subst.
  apply Hnotin. left. reflexivity.
Qed.


(** ** The etcd sub-plan *)

Lemma Server_eqb_eq (a b : storage.Server) : storage.Server_eqb a b = true <-> a = b.
Proof.
  unfold storage.Server_eqb. destruct a as [h1 i1], b as [h2 i2]; cbn.
  rewrite andb_true_iff, !String.eqb_eq. split.
  - intros [-> ->]. reflexivity.
  - intros H. inversion H. split; reflexivity.
Qed.

(** A loop attaching, for each server, a child that depends on the parent
    only through its ID, appends the children of all servers. *)
Lemma fold_left_append_children (f : storage.Server -> Phase -> Phase)
    (Hf : forall s p l, f s (set_Phases p l) = f s p)
    (servers : list storage.Server) (p : Phase) :
  fold_left (fun acc s => set_Phases acc (Phases acc ++ [f s acc])) servers p
  = set_Phases p (Phases p ++ map (fun s => f s p) servers).
Proof.
  revert p. induction servers as [| s servers IH]; intros p; cbn [fold_left map].
  - rewrite app_nil_r. destruct p; reflexivity.
  - rewrite IH. unfold set_Phases. cbn [ID Executor Description Data Phases Requires].
    rewrite <- app_assoc. cbn [app].
    f_equal. f_equal. f_equal. apply map_ext. intros a.
    apply (Hf a p (Phases p ++ [f s p])).
Qed.

(** Among the per-node children of a stage, the first that targets [x] is the
    phase of [x]. *)
Lemma find_child_for (stage : string) (children : list Phase)
    (servers : list storage.Server) (x : storage.Server) :
  Forall2 (child_for stage) children servers ->
  In x servers ->
  exists c, find (targets x) children = Some c /\
            ID c = (stage ++ "/" ++ storage.Hostname x)%string.
Proof.
  induction 1 as [| c s children servers [Ht Hid] _ IH]; intros Hin.
  - destruct Hin.
  - cbn [find]. rewrite Ht.
    destruct (storage.Server_eqb s x) eqn:Heq.
    + apply Server_eqb_eq in Heq. subst s. exists c. split; [reflexivity | exact Hid].
    + destruct Hin as [-> | Hin].
      * assert (storage.Server_eqb x x = true) by (apply Server_eqb_eq; reflexivity).
        congruence.
      * apply IH. exact Hin.
Qed.

(** Scoped to a node that has a phase in the stage, the reference is to that
    phase. *)
Lemma DependencyForServer_child (stage : Phase) (servers : list storage.Server)
    (x : storage.Server) :
  Forall2 (child_for (ID stage)) (Phases stage) servers ->
  In x servers ->
  DependencyForServer stage x = ChildLiteral stage (storage.Hostname x).
Proof.
  intros HF Hin. unfold DependencyForServer.
  destruct (find_child_for _ _ _ _ HF Hin) as [c [Hfind Hid]].
  rewrite Hfind. exact Hid.
Qed.

(** A relation that holds between [f a] and [a] relates [map f l] to [l]. *)
Lemma Forall2_map_l {A B} (R : B -> A -> Prop) (f : A -> B) (l : list A) :
  (forall a, R (f a) a) -> Forall2 R (map f l) l.
Proof. intros H. induction l; cbn; constructor; auto. Qed.

(** The children of the backup, shutdown and upgrade stages are the phases of
    the masters, lead first. *)
Lemma backupStage_children lead others :
  Forall2 (child_for (ID (backupStage lead others)))
          (Phases (backupStage lead others)) (lead :: others).
Proof.
  apply Forall2_map_l. intros s. split; [intros x|]; reflexivity.
Qed.

Lemma shutdownStage_children lead others :
  Forall2 (child_for (ID (shutdownStage lead others)))
          (Phases (shutdownStage lead others)) (lead :: others).
Proof.
  constructor.
  - split; [intros x|]; reflexivity.
  - apply Forall2_map_l. intros s. split; [intros x|]; reflexivity.
Qed.

Lemma upgradeStage_children lead others :
  Forall2 (child_for (ID (upgradeStage lead others)))
          (Phases (upgradeStage lead others)) (lead :: others).
Proof.
  apply Forall2_map_l. intros s. split; [intros x|]; reflexivity.
Qed.

(* Replace the named subterm [x] by its closed form, proved equal by [tac]. *)
Ltac close_set x closed tac :=
  let H := fresh "H" in
  assert (H : x = closed) by (subst x; tac);
  clearbody x; subst x.

(** The loop of [etcdPlan] over the other masters, for a stage whose phases
    depend on the phases of an earlier stage. *)
Lemma attach_with_dependency (stage : Phase) (servers others : list storage.Server)
    (mk : storage.Server -> Phase -> Phase) (acc : Phase)
    (Hmk : forall s p l, mk s (set_Phases p l) = mk s p) :
  Forall2 (child_for (ID stage)) (Phases stage) servers ->
  incl others servers ->
  fold_left
    (fun acc server =>
       let p := mk server acc in
       AddWithDependency acc (DependencyForServer stage server) p)
    others acc
  = set_Phases acc
      (Phases acc ++ map (fun s => Require (mk s acc)
                                     (ChildLiteral stage (storage.Hostname s))) others).
Proof.
  intros Hchildren Hincl. cbv zeta. unfold AddWithDependency.
  rewrite (fold_left_append_children
             (fun s acc => Require (mk s acc) (DependencyForServer stage s))).
  - f_equal. f_equal. apply map_ext_in. intros s Hs.
    rewrite (DependencyForServer_child stage servers s Hchildren (Hincl s Hs)).
    reflexivity.
  - intros s p l. rewrite Hmk. reflexivity.
Qed.

(** [etcdPlan] returns the tree written out in [etcdPlan_tree]. *)
Lemma etcdPlan_tree_eq lead others workers cur des :
  etcdPlan lead others workers cur des = etcdPlan_tree lead others cur des.
Proof.
  unfold etcdPlan. cbv zeta.
  set (root1 := if cur =? "" then _ else _).
  close_set root1
    (mkPhase "/etcd" None
       (if cur =? "" then fmt.Sprintf "Upgrade etcd to %v" [des]
        else fmt.Sprintf "Upgrade etcd %v to %v" [cur; des]) None [] [])
    ltac:(destruct (cur =? ""); reflexivity).
  set (d := if cur =? "" then _ else _).
  set (b2 := fold_left _ others (AddParallel (group _ (fmt.Lit "Backup etcd data")) _)).
  close_set b2 (backupStage lead others)
    ltac:(unfold AddParallel;
          rewrite (fold_left_append_children (fun s acc => etcdBackupNode s acc))
            by reflexivity;
          reflexivity).
  set (root2 := AddSequential _ [backupStage lead others]).
  close_set root2 (mkPhase "/etcd" None d None [backupStage lead others] []) reflexivity.
  set (s2 := fold_left _ others
               (AddWithDependency (group _ (fmt.Lit "Shutdown etcd cluster")) _ _)).
  close_set s2 (shutdownStage lead others)
    ltac:(rewrite (attach_with_dependency (backupStage lead others) (lead :: others) others
                     (fun s acc => etcdShutdownNode s acc false))
            by (try reflexivity; try apply backupStage_children;
                try (intros x Hx; right; exact Hx));
          unfold AddWithDependency;
          rewrite (DependencyForServer_child _ (lead :: others) lead
                     (backupStage_children lead others) (or_introl eq_refl));
          reflexivity).
  set (root3 := Add _ [shutdownStage lead others]).
  close_set root3 (mkPhase "/etcd" None d None
                     [backupStage lead others; shutdownStage lead others] []) reflexivity.
  set (u2 := fold_left _ others
               (AddWithDependency (group _ (fmt.Lit "Upgrade etcd servers")) _ _)).
  close_set u2 (upgradeStage lead others)
    ltac:(rewrite (attach_with_dependency (shutdownStage lead others) (lead :: others) others
                     (fun s acc => etcdUpgrade s acc))
            by (try reflexivity; try apply shutdownStage_children;
                try (intros x Hx; right; exact Hx));
          unfold AddWithDependency;
          rewrite (DependencyForServer_child _ (lead :: others) lead
                     (shutdownStage_children lead others) (or_introl eq_refl));
          reflexivity).
  set (root4 := Add _ [upgradeStage lead others]).
  close_set root4 (mkPhase "/etcd" None d None
                     [backupStage lead others; shutdownStage lead others;
                      upgradeStage lead others] []) reflexivity.
  set (root5 := AddSequential _ [_]).
  close_set root5 (mkPhase "/etcd" None d None
                     [backupStage lead others; shutdownStage lead others;
                      upgradeStage lead others; restoreStage lead] []) reflexivity.
  set (r2 := fold_left _ others
               (AddWithDependency (group _ (fmt.Lit "Restart etcd servers")) _ _)).
  close_set r2 (set_Phases restart0
                  (Require (etcdRestart lead lead restart0) "/etcd/restore"
                   :: map (fun s => Require (etcdRestart s lead restart0)
                                      (ChildLiteral upgrade0 (storage.Hostname s))) others))
    ltac:(rewrite (attach_with_dependency (upgradeStage lead others) (lead :: others) others
                     (fun s acc => etcdRestart s lead acc))
            by (try reflexivity; try apply upgradeStage_children;
                try (intros x Hx; right; exact Hx));
          reflexivity).
  unfold etcdPlan_tree, restartStage, Add, AddParallel, set_Phases. cbn [Phases ID Executor Description Data Requires app].
  reflexivity.
Qed.

(** [mem] decides membership. *)
Lemma mem_In (r : string) (l : list string) : mem r l = true <-> In r l.
Proof.
  unfold mem. rewrite existsb_exists. split.
  - intros [x [Hin Heq]]. apply String.eqb_eq in Heq. subst. exact Hin.
  - intros Hin. exists r. split; [exact Hin | apply String.eqb_refl].
Qed.

(** Phases whose references are all known already point backward. *)
Lemma backwardb_leaves (seen : list string) (l : list Phase) :
  (forall p, In p l -> forall r, In r (Requires p) -> In r seen) ->
  backwardb seen l = true.
Proof.
  revert seen. induction l as [| p l IH]; intros seen H; cbn [backwardb].
  - reflexivity.
  - apply andb_true_iff. split.
    + apply forallb_forall. intros r Hr. apply mem_In. apply (H p); [left; reflexivity | exact Hr].
    + apply IH. intros q Hq r Hr. right. apply (H q); [right; exact Hq | exact Hr].
Qed.

(** Knowing more IDs keeps the check true. *)
Lemma backwardb_mono (seen seen' : list string) (l : list Phase) :
  incl seen seen' -> backwardb seen l = true -> backwardb seen' l = true.
Proof.
  revert seen seen'. induction l as [| p l IH]; intros seen seen' Hincl; cbn [backwardb].
  - reflexivity.
  - rewrite !andb_true_iff. intros [Hreq Hrest]. split.
    + rewrite forallb_forall in *. intros r Hr. apply mem_In. apply Hincl.
      apply mem_In. apply Hreq. exact Hr.
    + apply (IH (ID p :: seen)); [| exact Hrest].
      intros x [Hx | Hx]; [left; exact Hx | right; apply Hincl; exact Hx].
Qed.

(** The check on a concatenation, from the checks on its parts. *)
Lemma backwardb_app (seen : list string) (l1 l2 : list Phase) :
  backwardb seen l1 = true ->
  backwardb (map ID l1 ++ seen) l2 = true ->
  backwardb seen (l1 ++ l2) = true.
Proof.
  revert seen. induction l1 as [| p l1 IH]; intros seen H1 H2; cbn [app backwardb] in *.
  - exact H2.
  - apply andb_true_iff in H1. destruct H1 as [Hreq Hrest].
    apply andb_true_iff. split; [exact Hreq |].
    apply IH; [exact Hrest |].
    apply (backwardb_mono (ID p :: map ID l1 ++ seen)); [| exact H2].
    intros x [Hx | Hx].
    + apply in_or_app. right. left. exact Hx.
    + apply in_app_or in Hx. apply in_or_app. destruct Hx as [Hx | Hx];
        [left; exact Hx | right; right; exact Hx].
Qed.

(** A reference that passed the check is known or is the ID of a phase of the
    list. *)
Lemma backwardb_requires (seen : list string) (l : list Phase) :
  backwardb seen l = true ->
  forall p, In p l -> forall r, In r (Requires p) -> In r (seen ++ map ID l).
Proof.
  revert seen. induction l as [| q l IH]; intros seen H p Hp r Hr; cbn [backwardb] in H.
  - destruct Hp.
  - apply andb_true_iff in H. destruct H as [Hreq Hrest]. destruct Hp as [-> | Hp].
    + rewrite forallb_forall in Hreq. apply in_or_app. left. apply mem_In. apply Hreq. exact Hr.
    + specialize (IH _ Hrest p Hp r Hr). cbn [map]. apply in_app_or in IH.
      apply in_or_app. destruct IH as [[<- | Hs] | Hl].
      * right. left. reflexivity.
      * left. exact Hs.
      * right. right. exact Hl.
Qed.

(** References that point backward do not dangle. *)
Lemma backwardb_resolved (plan : Phase) :
  backwardb [] (flatten plan) = true -> resolvedb plan = true.
Proof.
  intros H. unfold resolvedb. apply forallb_forall. intros p Hp.
  apply forallb_forall. intros r Hr. apply mem_In.
  exact (backwardb_requires [] _ H p Hp r Hr).
Qed.

(** A rank that every reference strictly decreases rules out cycles. *)
Lemma ranked_acyclic (plan : Phase) (rank : string -> nat) :
  (forall a b, depends_on plan a b -> rank b < rank a) -> acyclic plan.
Proof.
  intros Hrank a Hloop.
  assert (Hlt : forall x y, clos_trans string (depends_on plan) x y -> rank y < rank x).
  { induction 1 as [x y Hxy | x y z _ IH1 _ IH2].
    - apply Hrank. exact Hxy.
    - lia. }
  specialize (Hlt a a Hloop). lia.
Qed.

(** Flattening phases without children gives the phases. *)
Lemma flat_map_leaves (l : list Phase) :
  Forall leaf l -> flat_map flatten l = l.
Proof.
  induction 1 as [| c l Hc _ IH]; cbn [flat_map].
  - reflexivity.
  - rewrite IH. destruct c. unfold leaf in Hc. cbn in Hc. subst. reflexivity.
Qed.

(** A stage whose children are leaves flattens to itself and its children. *)
Lemma flatten_stage (p : Phase) :
  Forall leaf (Phases p) -> flatten p = p :: Phases p.
Proof.
  intros H. destruct p as [i e d dt l r]. cbn [flatten Phases] in *.
  rewrite (flat_map_leaves l H). reflexivity.
Qed.

(** Leaves built by [f] are leaves. *)
Lemma Forall_map_leaf {A} (f : A -> Phase) (l : list A) :
  (forall a, leaf (f a)) -> Forall leaf (map f l).
Proof. intros H. apply Forall_forall. intros p Hp. apply in_map_iff in Hp.
  destruct Hp as [a [<- _]]. apply H. Qed.

(** The per-node phases of each stage have no children. *)
Lemma backupStage_leaves lead others : Forall leaf (Phases (backupStage lead others)).
Proof. apply Forall_map_leaf. reflexivity. Qed.

Lemma shutdownStage_leaves lead others : Forall leaf (Phases (shutdownStage lead others)).
Proof. constructor; [reflexivity | apply Forall_map_leaf; reflexivity]. Qed.

Lemma upgradeStage_leaves lead others : Forall leaf (Phases (upgradeStage lead others)).
Proof. apply Forall_map_leaf. reflexivity. Qed.

Lemma restartStage_leaves lead others : Forall leaf (Phases (restartStage lead others)).
Proof.
  constructor; [reflexivity |]. apply Forall_app. split.
  - apply Forall_map_leaf. reflexivity.
  - constructor; [reflexivity | constructor].
Qed.

(** The phases of the etcd sub-plan in pre-order. *)
Lemma flatten_etcdPlan_tree lead others cur des :
  flatten (etcdPlan_tree lead others cur des)
  = [etcdPlan_tree lead others cur des]
    ++ (backupStage lead others :: Phases (backupStage lead others))
    ++ (shutdownStage lead others :: Phases (shutdownStage lead others))
    ++ (upgradeStage lead others :: Phases (upgradeStage lead others))
    ++ [restoreStage lead]
    ++ (restartStage lead others :: Phases (restartStage lead others)).
Proof.
  change (flatten (etcdPlan_tree lead others cur des))
    with (etcdPlan_tree lead others cur des
          :: flatten (backupStage lead others)
          ++ flatten (shutdownStage lead others)
          ++ flatten (upgradeStage lead others)
          ++ flatten (restoreStage lead)
          ++ flatten (restartStage lead others) ++ []).
  rewrite (flatten_stage _ (backupStage_leaves lead others)).
  rewrite (flatten_stage _ (shutdownStage_leaves lead others)).
  rewrite (flatten_stage _ (upgradeStage_leaves lead others)).
  rewrite (flatten_stage _ (restartStage_leaves lead others)).
  rewrite app_nil_r. reflexivity.
Qed.

(** Where the requirements of the phases of the etcd sub-plan point. *)
Lemma etcdPlan_tree_requires lead others cur des p r :
  In p (flatten (etcdPlan_tree lead others cur des)) ->
  In r (Requires p) ->
  (exists s, In s (lead :: others) /\
             ID p = ChildLiteral shutdown0 (storage.Hostname s) /\
             r = ChildLiteral backup0 (storage.Hostname s)) \/
  (exists s, In s (lead :: others) /\
             ID p = ChildLiteral upgrade0 (storage.Hostname s) /\
             r = ChildLiteral shutdown0 (storage.Hostname s)) \/
  (ID p = "/etcd/restore" /\ r = "/etcd/upgrade") \/
  (ID p = ChildLiteral restart0 (storage.Hostname lead) /\ r = "/etcd/restore") \/
  (exists s, In s others /\
             ID p = ChildLiteral restart0 (storage.Hostname s) /\
             r = ChildLiteral upgrade0 (storage.Hostname s)).
Proof.
  rewrite flatten_etcdPlan_tree. intros Hp Hr.
  repeat (apply in_app_or in Hp; destruct Hp as [Hp | Hp]).
  - destruct Hp as [<- | []]. destruct Hr.
  - destruct Hp as [<- | Hp]; [destruct Hr |].
    apply in_map_iff in Hp. destruct Hp as [s [<- _]]. destruct Hr.
  - destruct Hp as [<- | Hp]; [destruct Hr |].
    left. destruct Hp as [<- | Hp].
    + exists lead. destruct Hr as [<- | []]. repeat split. left. reflexivity.
    + apply in_map_iff in Hp. destruct Hp as [s [<- Hs]].
      exists s. destruct Hr as [<- | []]. repeat split. right. exact Hs.
  - destruct Hp as [<- | Hp]; [destruct Hr |].
    right. left. apply in_map_iff in Hp. destruct Hp as [s [<- Hs]].
    exists s. destruct Hr as [<- | []]. repeat split. exact Hs.
  - destruct Hp as [<- | []]. destruct Hr as [<- | []].
    right. right. left. split; reflexivity.
  - destruct Hp as [<- | Hp]; [destruct Hr |].
    destruct Hp as [<- | Hp].
    + destruct Hr as [<- | []]. right. right. right. left. split; reflexivity.
    + apply in_app_or in Hp. destruct Hp as [Hp | Hp].
      * apply in_map_iff in Hp. destruct Hp as [s [<- Hs]].
        destruct Hr as [<- | []]. right. right. right. right.
        exists s. repeat split. exact Hs.
      * destruct Hp as [<- | []]. destruct Hr.
Qed.

(** The stage of the paths of the sub-plan, for any host name. *)
Lemma etcd_stage_examples (h : string) :
  etcd_stage (ChildLiteral backup0 h) = 1 /\
  etcd_stage (ChildLiteral shutdown0 h) = 2 /\
  etcd_stage (ChildLiteral upgrade0 h) = 3 /\
  etcd_stage "/etcd/upgrade" = 3 /\
  etcd_stage "/etcd/restore" = 4 /\
  etcd_stage (ChildLiteral restart0 h) = 5.
Proof. repeat split; reflexivity. Qed.

(** X21.  In the plan [etcdPlan] builds, for any lead master, other masters,
    workers and versions: every dependency reference of every phase is the ID
    of a phase of the plan (none dangles); walking the tree in pre-order,
    every reference is to a phase met earlier; and no phase can be reached
    from itself along references (the graph is acyclic). *)
Theorem etcdPlan_dependencies_well_formed
    (leadMaster : storage.Server) (otherMasters workers : list storage.Server)
    (currentVersion desiredVersion : string) :
  let plan := etcdPlan leadMaster otherMasters workers currentVersion desiredVersion in
  resolvedb plan = true /\
  backwardb [] (flatten plan) = true /\
  acyclic plan.
Proof.
  cbv zeta. rewrite etcdPlan_tree_eq.
  assert (Hback : backwardb [] (flatten (etcdPlan_tree leadMaster otherMasters
                                          currentVersion desiredVersion)) = true).
  { rewrite flatten_etcdPlan_tree.
    apply backwardb_app; [reflexivity |].
    apply backwardb_app.
    { apply backwardb_leaves. intros p [<- | Hp] r Hr; [destruct Hr |].
      apply in_map_iff in Hp. destruct Hp as [s [<- _]]. destruct Hr. }
    apply backwardb_app.
    { apply backwardb_leaves. intros p [<- | Hp] r Hr; [destruct Hr |].
      apply in_or_app. left. right.
      destruct Hp as [<- | Hp].
      - destruct Hr as [<- | []]. left. reflexivity.
      - apply in_map_iff in Hp. destruct Hp as [s [<- Hs]]. destruct Hr as [<- | []].
        right. apply in_map_iff. exists (etcdBackupNode s backup0).
        split; [reflexivity |].
        apply (in_map (fun s => etcdBackupNode s backup0)). exact Hs. }
    apply backwardb_app.
    { apply backwardb_leaves. intros p [<- | Hp] r Hr; [destruct Hr |].
      apply in_or_app. left. right.
      apply in_map_iff in Hp. destruct Hp as [s [<- Hs]]. destruct Hr as [<- | []].
      destruct Hs as [<- | Hs]; [left; reflexivity | right].
      apply in_map_iff.
      exists (Require (etcdShutdownNode s shutdown0 false)
                (ChildLiteral backup0 (storage.Hostname s))).
      split; [reflexivity |].
      apply (in_map (fun s => Require (etcdShutdownNode s shutdown0 false)
                                (ChildLiteral backup0 (storage.Hostname s)))).
      exact Hs. }
    apply backwardb_app.
    { apply backwardb_leaves. intros p [<- | []] r [<- | []].
      apply in_or_app. left. left. reflexivity. }
    apply backwardb_leaves. intros p [<- | Hp] r Hr; [destruct Hr |].
    destruct Hp as [<- | Hp].
    - destruct Hr as [<- | []]. left. reflexivity.
    - apply in_app_or in Hp. destruct Hp as [Hp | [<- | []]]; [| destruct Hr].
      apply in_map_iff in Hp. destruct Hp as [s [<- Hs]]. destruct Hr as [<- | []].
      apply in_or_app. right. apply in_or_app. left. right.
      apply in_map_iff.
      exists (Require (etcdUpgrade s upgrade0) (ChildLiteral shutdown0 (storage.Hostname s))).
      split; [reflexivity |].
      apply (in_map (fun s => Require (etcdUpgrade s upgrade0)
                                (ChildLiteral shutdown0 (storage.Hostname s)))).
      right. exact Hs. }
  split; [apply backwardb_resolved; exact Hback |].
  split; [exact Hback |].
  apply (ranked_acyclic _ etcd_stage).
  intros a b [p [Hp [<- Hr]]].
  destruct (etcdPlan_tree_requires _ _ _ _ _ _ Hp Hr)
    as [[s [_ [-> ->]]] | [[s [_ [-> ->]]] | [[-> ->] | [[-> ->] | [s [_ [-> ->]]]]]]];
    apply Nat.ltb_lt; reflexivity.
Qed.

(** C5 (amended).  The etcd sub-plan has the five stages backup, shutdown,
    upgrade, restore and restart, in this order.  Backup has one phase per
    master and no reference.  The shutdown phase of master X refers to the
    backup phase of X and to nothing else, the upgrade phase of X to the
    shutdown phase of X and to nothing else.  Restore is a single phase on the
    lead master, attached sequentially: it refers to the upgrade stage.  The
    restart phase of the lead master refers to the restore phase, that of
    every other master X to the upgrade phase of X; a last restart phase,
    without reference, restarts the gravity-site service on the lead
    master. *)
Theorem etcdPlan_dependency_edges
    (leadMaster : storage.Server) (otherMasters workers : list storage.Server)
    (currentVersion desiredVersion : string) :
  let host := storage.Hostname in
  exists backup shutdown upgrade restore restart,
    Phases (etcdPlan leadMaster otherMasters workers currentVersion desiredVersion)
    = [backup; shutdown; upgrade; restore; restart] /\
    edges [backup; shutdown; upgrade; restore; restart]
    = [ ("/etcd/backup", None, []); ("/etcd/shutdown", None, []);
        ("/etcd/upgrade", None, []);
        ("/etcd/restore", Some leadMaster, ["/etcd/upgrade"]);
        ("/etcd/restart", None, []) ]%string /\
    edges (Phases backup)
    = map (fun s => ("/etcd/backup/" ++ host s, Some s, []))%string
          (leadMaster :: otherMasters) /\
    edges (Phases shutdown)
    = map (fun s => ("/etcd/shutdown/" ++ host s, Some s, ["/etcd/backup/" ++ host s]))%string
          (leadMaster :: otherMasters) /\
    edges (Phases upgrade)
    = map (fun s => ("/etcd/upgrade/" ++ host s, Some s, ["/etcd/shutdown/" ++ host s]))%string
          (leadMaster :: otherMasters) /\
    Phases restore = [] /\
    Executor restore = Some updateEtcdRestore /\
    edges (Phases restart)
    = (("/etcd/restart/" ++ host leadMaster)%string, Some leadMaster, ["/etcd/restore"%string])
      :: map (fun s => ("/etcd/restart/" ++ host s, Some s, ["/etcd/upgrade/" ++ host s]))%string
             otherMasters
      ++ [ ("/etcd/restart/gravity-site"%string, Some leadMaster, []) ] /\
    map Executor (Phases restart)
    = Some updateEtcdRestart
      :: map (fun _ => Some updateEtcdRestart) otherMasters
      ++ [Some updateEtcdRestartGravity].
Proof.
  cbv zeta. rewrite etcdPlan_tree_eq.
  exists (backupStage leadMaster otherMasters), (shutdownStage leadMaster otherMasters),
         (upgradeStage leadMaster otherMasters), (restoreStage leadMaster),
         (restartStage leadMaster otherMasters).
  split; [reflexivity |]. split; [reflexivity |].
  unfold edges, backupStage, shutdownStage, upgradeStage, restartStage, set_Phases.
  cbn [Phases map].
  rewrite !map_app, !map_map. cbn [map].
  repeat split; reflexivity.
Qed.

(** C5 (as stated).  With two masters, the restart phase of the lead master
    refers to the restore phase only, neither to its own upgrade phase nor to
    the upgrade stage; and the restore phase refers to the upgrade stage, not
    to the shutdown stage. *)
Lemma etcdPlan_lead_restart_waits_for_restore_only :
  let plan := etcdPlan master1 [master2] [] "3.3.2" "3.3.11" in
  (exists p, lookup "/etcd/restart/node-1" plan = Some p /\
             Requires p = ["/etcd/restore"]%string /\
             ~ In "/etcd/upgrade/node-1"%string (Requires p) /\
             ~ In "/etcd/upgrade"%string (Requires p)) /\
  (exists q, lookup "/etcd/restore" plan = Some q /\
             Requires q = ["/etcd/upgrade"]%string /\
             ~ In "/etcd/shutdown"%string (Requires q) /\
             ~ In "/etcd/shutdown/node-1"%string (Requires q)).
Proof.
  cbv zeta. split; eexists; (split; [vm_compute; reflexivity |]); cbn;
    (split; [reflexivity |]); split; intros [H | []]; discriminate H.
Qed.

(** ** The masters phase *)

Lemma last_error_cons {A} (x : A) (l : list A) : exists y, last_error (x :: l) = Some y.
Proof.
  unfold last_error. cbn [length]. rewrite Nat.sub_1_r. cbn [Nat.pred].
  destruct (nth_error (x :: l) (length l)) eqn:E.
  - eexists; reflexivity.
  - apply nth_error_None in E. cbn in E. lia.
Qed.

(** Subtrees without a stepdown phase contribute none. *)
Lemma filter_flat_map_quiet (l : list Phase) :
  Forall quiet l -> filter is_stepdown (flat_map flatten l) = [].
Proof.
  induction 1 as [| p l Hp _ IH]; cbn [flat_map].
  - reflexivity.
  - rewrite filter_app, IH. unfold quiet in Hp. rewrite Hp. reflexivity.
Qed.

Section Masters.

Variable leadMaster : storage.UpdateServer.
Variable supportsTaints : bool.

(** The body of the loop of [masters] over the other masters. *)
Let step (root : Phase) (server : storage.UpdateServer) : Phase :=
  let node := node (storage.us_Server server) root
                "Update system software on master node %q" in
  let electionChanges :=
    {| id := "";
       description := fmt.Sprintf "Enable leader election on node %q"
                        [us_Hostname server];
       enable := serversToStorage [server];
       disable := [] |} in
  let node := AddSequential node
    (commonNode server leadMaster supportsTaints true electionChanges) in
  AddSequential root [node].

(** One turn of the loop appends the node phase of the server, which holds no
    stepdown phase. *)
Lemma masters_step (root : Phase) (server : storage.UpdateServer) :
  ID root = "/masters" -> Phases root <> [] ->
  exists n, step root server = set_Phases root (Phases root ++ [n]) /\ quiet n.
Proof.
  intros Hid Hne. unfold step. cbv zeta.
  set (n := AddSequential (node _ _ _) _).
  unfold AddSequential. cbn [fold_left].
  destruct (Phases root) as [| c l] eqn:Hph; [contradiction |].
  destruct (last_error_cons c l) as [prev Hprev]. rewrite Hprev.
  exists (Require n (ID prev)). split; [reflexivity |].
  subst n. unfold node, ChildLiteral. rewrite Hid.
  destruct supportsTaints; reflexivity.
Qed.

(** The loop appends one node phase per other master, none of which holds a
    stepdown phase. *)
Lemma masters_loop (others : list storage.UpdateServer) (root : Phase) :
  ID root = "/masters" -> Phases root <> [] ->
  exists rest, fold_left step others root = set_Phases root (Phases root ++ rest) /\
               length rest = length others /\ Forall quiet rest.
Proof.
  revert root. induction others as [| o os IH]; intros root Hid Hne; cbn [fold_left].
  - exists []. rewrite app_nil_r. destruct root; repeat split. constructor.
  - destruct (masters_step root o Hid Hne) as [n [Hn Hq]]. rewrite Hn.
    destruct (IH (set_Phases root (Phases root ++ [n]))) as [rest [Hrest [Hlen Hqs]]].
    + exact Hid.
    + cbn. destruct (Phases root); discriminate.
    + rewrite Hrest. exists (n :: rest). cbn [Phases set_Phases ID Executor Description Data Requires].
      rewrite <- app_assoc. repeat split.
      * cbn. rewrite Hlen. reflexivity.
      * constructor; assumption.
Qed.

(** C2 (amended).  The masters phase has one node phase per master, the lead
    master's first.  With the lead master alone, the plan holds no stepdown
    phase and no leader-election phase at all, and the lead master's sequence
    is drain, system upgrade, health, taint if supported, uncordon, endpoint
    wait, untaint if supported.  With other masters, the plan holds exactly
    one stepdown phase: a leader-election phase on the lead master that
    enables no server and disables the lead master; and the lead master's
    sequence is kubelet permissions, stepdown, drain, system upgrade, election
    change, health, taint if supported, uncordon, untaint if supported, with
    no endpoint wait. *)
Theorem masters_leadership (otherMasters : list storage.UpdateServer) :
  let plan := masters leadMaster otherMasters supportsTaints in
  exists leadNode rest,
    Phases plan = leadNode :: rest /\
    ID leadNode = ("/masters/" ++ us_Hostname leadMaster)%string /\
    length rest = length otherMasters /\
    match otherMasters with
    | [] =>
        filter is_stepdown (flatten plan) = [] /\
        filter is_election (flatten plan) = [] /\
        map Executor (Phases leadNode)
        = [Some drainNode; Some updateSystem; Some nodeHealth]
          ++ (if supportsTaints then [Some taintNode] else [])
          ++ [Some uncordonNode; Some endpoints]
          ++ (if supportsTaints then [Some untaintNode] else [])
    | _ :: _ =>
        (exists stepdown,
            filter is_stepdown (flatten plan) = [stepdown] /\
            Executor stepdown = Some electionStatus /\
            target stepdown = Some (storage.us_Server leadMaster) /\
            electionChange stepdown
            = Some {| storage.EnableServers := [];
                      storage.DisableServers := [storage.us_Server leadMaster] |}) /\
        map Executor (Phases leadNode)
        = [Some kubeletPermissions; Some electionStatus;
           Some drainNode; Some updateSystem; Some electionStatus; Some nodeHealth]
          ++ (if supportsTaints then [Some taintNode] else [])
          ++ [Some uncordonNode]
          ++ (if supportsTaints then [Some untaintNode] else [])
    end.
Proof.
  cbv zeta. destruct otherMasters as [| o os].
  - destruct supportsTaints; do 2 eexists; repeat split.
  - unfold masters. cbv zeta. cbn [length Nat.eqb negb].
    match goal with
    | |- context [fold_left ?f (o :: os) ?r] => change f with step; set (root1 := r)
    end.
    assert (Hlead : exists leadNode stepdown,
               Phases root1 = [leadNode] /\
               ID root1 = "/masters" /\
               ID leadNode = ("/masters/" ++ us_Hostname leadMaster)%string /\
               filter is_stepdown (flatten leadNode) = [stepdown] /\
               Executor stepdown = Some electionStatus /\
               target stepdown = Some (storage.us_Server leadMaster) /\
               electionChange stepdown
               = Some {| storage.EnableServers := [];
                         storage.DisableServers := [storage.us_Server leadMaster] |} /\
               map Executor (Phases leadNode)
               = [Some kubeletPermissions; Some electionStatus;
                  Some drainNode; Some updateSystem; Some electionStatus; Some nodeHealth]
                 ++ (if supportsTaints then [Some taintNode] else [])
                 ++ [Some uncordonNode]
                 ++ (if supportsTaints then [Some untaintNode] else [])).
    { subst root1. destruct supportsTaints; do 2 eexists; repeat split. }
    destruct Hlead as [leadNode [stepdown [Hph [Hid [Hlid [Hsd [Hex [Htg [Hec Hkinds]]]]]]]]].
    destruct (masters_loop (o :: os) root1) as [rest [Hrest [Hlen Hq]]].
    + exact Hid.
    + rewrite Hph. discriminate.
    + rewrite Hrest. exists leadNode, rest.
      split; [cbn [Phases set_Phases]; rewrite Hph; reflexivity |].
      split; [exact Hlid |]. split; [exact Hlen |].
      split; [| exact Hkinds].
      exists stepdown. split; [| repeat split; assumption].
      cbn [flatten set_Phases Phases]. rewrite Hph. cbn [app flat_map filter].
      unfold is_stepdown at 1. cbn [ID]. rewrite Hid. cbn [String.eqb Ascii.eqb Bool.eqb].
      rewrite filter_app, Hsd, (filter_flat_map_quiet rest Hq). reflexivity.
Qed.

End Masters.

(** C2 (as stated).  With a single master the plan holds no leader-election
    phase: leadership is not re-enabled at the end, or anywhere. *)
Lemma masters_single_master_no_election :
  filter is_election (flatten (masters lead1 [] true)) = [] /\
  map ID (flatten (masters lead1 [] true))
  = [ "/masters"; "/masters/node-1"; "drain"; "system-upgrade"; "health"; "taint";
      "uncordon"; "endpoints"; "untaint" ]%string.
Proof. split; reflexivity. Qed.

(** * Properties of the rest of the code *)

(** ** The upgrade job *)

(** X1.  [execUpgradeJob] returns a nil error exactly when the manifest was
    rendered, written and applied, the runner was created, the log stream and
    the fetch of the job returned no error and the job has no failed pod; the
    output is then the streamed log. *)
Theorem execUpgradeJob_success_iff
    (Template TemplateData : Type) (w : Collaborators Template TemplateData)
    (template : Template) (templateData : TemplateData) (jobName : string) :
  snd (execUpgradeJob w template templateData jobName) = None <->
  exists buf out logs job,
    template_Execute w template templateData = Ok buf /\
    ioutil_WriteFile w "openebs_data_plane_component_upgrade.yaml" buf = None /\
    kubectl_Apply w "openebs_data_plane_component_upgrade.yaml" = (out, None) /\
    hooks_NewRunner w = None /\
    runner_StreamLogs w {| JobRef_Name := jobName; JobRef_Namespace := "openebs" |}
    = (logs, None) /\
    Jobs_Get w "openebs" jobName = Ok job /\
    Status_Failed job = 0%Z /\
    execUpgradeJob w template templateData jobName = (logs, None).
Proof.
  unfold execUpgradeJob, k8sNamespace. cbn [JobRef_Name JobRef_Namespace].
  destruct (template_Execute w template templateData) as [buf | e1].
  2:{ cbn. split; [discriminate | intros (b & o & l & j & H & _); discriminate]. }
  destruct (ioutil_WriteFile w _ buf) as [e2 |] eqn:Hw.
  { cbn. split; [discriminate |].
    intros (b & o & l & j & H & H2 & _). inversion H; subst. congruence. }
  destruct (kubectl_Apply w _) as [out [e3 |]] eqn:Ha.
  { cbn. split; [discriminate |].
    intros (b & o & l & j & _ & _ & H3 & _). discriminate. }
  destruct (hooks_NewRunner w) as [e4 |] eqn:Hr.
  { cbn. split; [discriminate |].
    intros (b & o & l & j & _ & _ & _ & H4 & _). discriminate. }
  destruct (runner_StreamLogs w _) as [logs [e5 |]] eqn:Hs.
  { cbn. split; [discriminate |].
    intros (b & o & l & j & _ & _ & _ & _ & H5 & _). discriminate. }
  destruct (Jobs_Get w "openebs" jobName) as [job | e6] eqn:Hg.
  2:{ cbn. split; [discriminate |].
      intros (b & o & l & j & _ & _ & _ & _ & _ & H6 & _). discriminate. }
  destruct (Z.eqb_spec (Status_Failed job) 0) as [Hz | Hnz]; cbn.
  - split; [| reflexivity]. intros _.
    exists buf, out, logs, job. repeat split; try reflexivity; assumption.
  - split; [discriminate |].
    intros (b & o & l & j & _ & _ & _ & _ & _ & H6 & H7 & _).
    inversion H6; subst. contradiction.
Qed.

(** X2.  Once the job was submitted and the runner created, the output of
    [execUpgradeJob] is what the log stream wrote, whatever happens next: the
    stream failing, the fetch failing, failed pods, or success. *)
Theorem execUpgradeJob_logs_surfaced
    (Template TemplateData : Type) (w : Collaborators Template TemplateData)
    (template : Template) (templateData : TemplateData) (jobName : string)
    (buf out logs : string) (streamErr : option error)
    (Hrender : template_Execute w template templateData = Ok buf)
    (Hwrite : ioutil_WriteFile w "openebs_data_plane_component_upgrade.yaml" buf = None)
    (Happly : kubectl_Apply w "openebs_data_plane_component_upgrade.yaml" = (out, None))
    (Hrunner : hooks_NewRunner w = None)
    (Hstream : runner_StreamLogs w {| JobRef_Name := jobName; JobRef_Namespace := "openebs" |}
               = (logs, streamErr)) :
  fst (execUpgradeJob w template templateData jobName) = logs /\
  (streamErr <> None -> snd (execUpgradeJob w template templateData jobName) <> None).
Proof.
  unfold execUpgradeJob, k8sNamespace.
  rewrite Hrender, Hwrite, Happly, Hrunner, Hstream.
  destruct streamErr as [e |].
  - split; [reflexivity | intros _; discriminate].
  - cbn [JobRef_Name JobRef_Namespace].
    destruct (Jobs_Get w "openebs" jobName) as [job | e]; [| split; [reflexivity | congruence]].
    destruct (negb (Status_Failed job =? 0)%Z); split; try reflexivity; congruence.
Qed.

Lemma execUpgradeJob_logs_surfaced_witness :
  fst (execUpgradeJob (allSucceed 1) tt tt "cstor-pool-a") = "upgrade failed" /\
  (@None error <> None ->
   snd (execUpgradeJob (allSucceed 1) tt tt "cstor-pool-a") <> None).
Proof.
  apply (execUpgradeJob_logs_surfaced unit unit (allSucceed 1) tt tt "cstor-pool-a"
           "kind: Job" "job.batch/cstor-pool-a created" "upgrade failed" None
           eq_refl eq_refl eq_refl eq_refl eq_refl).
Defined.

(** ** The executor constructors *)

(** Up to the first separator, [strings.Split] cuts where the separator is. *)
Lemma Split_field (sep : ascii) (a b : string) :
  has_byte sep a = false ->
  strings.Split (a ++ String sep b) sep = a :: strings.Split b sep.
Proof.
  induction a as [| c a IH]; cbn; intros H.
  - rewrite Ascii.eqb_refl. reflexivity.
  - apply orb_false_iff in H. destruct H as [Hc Ha].
    rewrite Hc, (IH Ha). reflexivity.
Qed.

(** A string without the separator is its own single field. *)
Lemma Split_single (sep : ascii) (a : string) :
  has_byte sep a = false -> strings.Split a sep = [a].
Proof.
  induction a as [| c a IH]; cbn; intros H.
  - reflexivity.
  - apply orb_false_iff in H. destruct H as [Hc Ha].
    rewrite Hc, (IH Ha). reflexivity.
Qed.

(** X3.  A payload made of a name, a from-version and a to-version without
    spaces, joined by single spaces, is read back by both constructors as
    exactly these three, with a nil error. *)
Theorem NewPhaseUpgrade_reads_payload (name fromVersion toVersion : string)
    (Hname : has_byte space name = false)
    (Hfrom : has_byte space fromVersion = false)
    (Hto : has_byte space toVersion = false) :
  NewPhaseUpgradePool (payloadPhase (upgradePayload name fromVersion toVersion))
  = Returns ({| Pool := name; Pool_FromVersion := fromVersion;
                Pool_ToVersion := toVersion |}, None) /\
  NewPhaseUpgradeVolume (payloadPhase (upgradePayload name fromVersion toVersion))
  = Returns ({| Volume := name; Volume_FromVersion := fromVersion;
                Volume_ToVersion := toVersion |}, None).
Proof.
  unfold NewPhaseUpgradePool, NewPhaseUpgradeVolume, payloadPhase, upgradePayload.
  cbn [Data deref bind_outcome storage.Data_Data].
  rewrite (Split_field space name _ Hname), (Split_field space fromVersion _ Hfrom),
    (Split_single space toVersion Hto).
  split; reflexivity.
Qed.

Lemma NewPhaseUpgrade_reads_payload_witness :
  NewPhaseUpgradePool (payloadPhase (upgradePayload "pool-a" "1.7.0" "2.2.0"))
  = Returns ({| Pool := "pool-a"; Pool_FromVersion := "1.7.0";
                Pool_ToVersion := "2.2.0" |}, None) /\
  NewPhaseUpgradeVolume (payloadPhase (upgradePayload "pool-a" "1.7.0" "2.2.0"))
  = Returns ({| Volume := "pool-a"; Volume_FromVersion := "1.7.0";
                Volume_ToVersion := "2.2.0" |}, None).
Proof.
  apply (NewPhaseUpgrade_reads_payload "pool-a" "1.7.0" "2.2.0"); reflexivity.
Defined.

(** ** Storage-component discovery, continued *)

(** Attaching one phase sequentially keeps its ID, executor and data. *)
Lemma AddSequential_one_data (root x : Phase) :
  exists x', AddSequential root [x] = set_Phases root (Phases root ++ [x']) /\
             ID x' = ID x /\ Executor x' = Executor x /\ Data x' = Data x.
Proof.
  unfold AddSequential. cbn [fold_left].
  destruct (last_error (Phases root)) as [prev |].
  - exists (Require x (ID prev)). repeat split.
  - exists x. repeat split.
Qed.

(** A loop that attaches one phase per item, each related to its item by [Q],
    appends phases related to the items one by one. *)
Lemma attach_each_related {A} (step : Phase -> A -> Phase) (Q : A -> Phase -> Prop)
    (Hstep : forall r x, exists x',
        step r x = set_Phases r (Phases r ++ [x']) /\ Q x x')
    (l : list A) (root : Phase) :
  exists attached,
    fold_left step l root = set_Phases root (Phases root ++ attached) /\
    Forall2 Q l attached.
Proof.
  revert root. induction l as [| x l IH]; intros root; cbn [fold_left].
  - exists []. rewrite app_nil_r. destruct root; split; [reflexivity | constructor].
  - destruct (Hstep root x) as [x' [Hx HQ]]. rewrite Hx.
    destruct (IH (set_Phases root (Phases root ++ [x']))) as [attached [Hfold HQs]].
    rewrite Hfold. exists (x' :: attached).
    cbn [set_Phases Phases ID Executor Description Data Requires].
    rewrite <- app_assoc. split; [reflexivity | constructor; assumption].
Qed.

(** X4.  When [openEBSUpgrade] returns a nil error, the phase it was given has
    kept its children and gained, after them, one pool upgrade phase per line
    of the pool answer and then one volume upgrade phase per line of the
    volume answer, in the order of the lines, each with its line as payload. *)
Theorem openEBSUpgrade_success_phases (d : Discovery)
    (leadMaster : storage.UpdateServer) (root : Phase)
    (Hok : snd (openEBSUpgrade d leadMaster root) = None) :
  exists pools volumes,
    Phases (fst (openEBSUpgrade d leadMaster root)) = Phases root ++ pools ++ volumes /\
    ID (fst (openEBSUpgrade d leadMaster root)) = ID root /\
    map payload pools = strings.Split (pools_out d) newline /\
    map payload volumes = strings.Split (volumes_out d) newline /\
    Forall (fun p => Executor p = Some updateOpenEBSPool) pools /\
    Forall (fun p => Executor p = Some updateOpenEBSVolume) volumes.
Proof.
  revert Hok. unfold openEBSUpgrade.
  destruct (pools_err d) as [e |]; [discriminate |].
  destruct (Nat.eqb (String.length (pools_out d)) 0); [discriminate |].
  destruct (volumes_err d) as [e |]; [discriminate |].
  destruct (Nat.eqb (String.length (volumes_out d)) 0); [discriminate |].
  intros _. cbn [fst].
  match goal with
  | |- context [fold_left ?f (strings.Split (pools_out d) newline) root] =>
      destruct (attach_each_related f
                  (fun line p => payload p = line /\ Executor p = Some updateOpenEBSPool))
        with (l := strings.Split (pools_out d) newline) (root := root)
        as [pools [Hpools HQp]]
  end.
  { intros r x. edestruct AddSequential_one as [x' [Hx [_ [Hex Hpay]]]].
    exists x'. split; [exact Hx |]. split; [exact Hpay | exact Hex]. }
  rewrite Hpools.
  match goal with
  | |- context [fold_left ?f (strings.Split (volumes_out d) newline) ?r] =>
      destruct (attach_each_related f
                  (fun line p => payload p = line /\ Executor p = Some updateOpenEBSVolume))
        with (l := strings.Split (volumes_out d) newline) (root := r)
        as [volumes [Hvolumes HQv]]
  end.
  { intros r x. edestruct AddSequential_one as [x' [Hx [_ [Hex Hpay]]]].
    exists x'. split; [exact Hx |]. split; [exact Hpay | exact Hex]. }
  rewrite Hvolumes. exists pools, volumes.
  cbn [set_Phases Phases ID]. rewrite <- app_assoc.
  split; [reflexivity |]. split; [reflexivity |].
  assert (Hmap : forall k (l : list string) (ps : list Phase),
             Forall2 (fun line p => payload p = line /\ Executor p = Some k) l ps ->
             map payload ps = l /\ Forall (fun p => Executor p = Some k) ps).
  { intros k l ps H. induction H as [| x p l ps [Hp He] _ [IH1 IH2]].
    - split; [reflexivity | constructor].
    - cbn [map]. rewrite Hp, IH1. split; [reflexivity | constructor; assumption]. }
  destruct (Hmap _ _ _ HQp) as [Hp1 Hp2]. destruct (Hmap _ _ _ HQv) as [Hv1 Hv2].
  repeat split; assumption.
Qed.

Lemma openEBSUpgrade_success_phases_witness :
  exists pools volumes,
    Phases (fst (openEBSUpgrade twoPoolsOneVolume lead1 storageRoot))
    = Phases storageRoot ++ pools ++ volumes /\
    ID (fst (openEBSUpgrade twoPoolsOneVolume lead1 storageRoot)) = ID storageRoot /\
    map payload pools = strings.Split (pools_out twoPoolsOneVolume) newline /\
    map payload volumes = strings.Split (volumes_out twoPoolsOneVolume) newline /\
    Forall (fun p => Executor p = Some updateOpenEBSPool) pools /\
    Forall (fun p => Executor p = Some updateOpenEBSVolume) volumes.
Proof.
  apply (openEBSUpgrade_success_phases twoPoolsOneVolume lead1 storageRoot).
  reflexivity.
Defined.

(** What the pool constructor does depends on the data of the phase only. *)
Lemma NewPhaseUpgradePool_short (p : Phase) (d : storage.OperationPhaseData) :
  Data p = Some d ->
  length (strings.Split (storage.Data_Data d) space) < 3 ->
  NewPhaseUpgradePool p = Panics "index out of range".
Proof.
  intros Hd Hlen. unfold NewPhaseUpgradePool. rewrite Hd. cbn [deref bind_outcome].
  destruct (strings.Split (storage.Data_Data d) space) as [| a [| b [| c l]]];
    try reflexivity.
  cbn in Hlen. lia.
Qed.

(** The same for the volume constructor. *)
Lemma NewPhaseUpgradeVolume_short (p : Phase) (d : storage.OperationPhaseData) :
  Data p = Some d ->
  length (strings.Split (storage.Data_Data d) space) < 3 ->
  NewPhaseUpgradeVolume p = Panics "index out of range".
Proof.
  intros Hd Hlen. unfold NewPhaseUpgradeVolume. rewrite Hd. cbn [deref bind_outcome].
  destruct (strings.Split (storage.Data_Data d) space) as [| a [| b [| c l]]];
    try reflexivity.
  cbn in Hlen. lia.
Qed.

(** X5.  The builder stores each discovered line as the payload, and the
    executor constructors index three fields of it.  So when every line of
    the discovery answers has fewer than three space-separated fields, as the
    name-and-version lines of the discovery format have, every phase
    [openEBSUpgrade] attaches makes its constructor panic. *)
Theorem openEBSUpgrade_phases_panic_constructors (d : Discovery)
    (leadMaster : storage.UpdateServer) (root : Phase)
    (Hok : snd (openEBSUpgrade d leadMaster root) = None)
    (Hpools : forall line, In line (strings.Split (pools_out d) newline) ->
                           length (strings.Split line space) < 3)
    (Hvolumes : forall line, In line (strings.Split (volumes_out d) newline) ->
                             length (strings.Split line space) < 3) :
  exists pools volumes,
    Phases (fst (openEBSUpgrade d leadMaster root)) = Phases root ++ pools ++ volumes /\
    pools <> [] /\ volumes <> [] /\
    Forall (fun p => NewPhaseUpgradePool p = Panics "index out of range") pools /\
    Forall (fun p => NewPhaseUpgradeVolume p = Panics "index out of range") volumes.
Proof.
  revert Hok. unfold openEBSUpgrade.
  destruct (pools_err d) as [e |]; [discriminate |].
  destruct (Nat.eqb (String.length (pools_out d)) 0); [discriminate |].
  destruct (volumes_err d) as [e |]; [discriminate |].
  destruct (Nat.eqb (String.length (volumes_out d)) 0); [discriminate |].
  intros _. cbn [fst].
  pose (Q := fun (line : string) (p : Phase) =>
               exists dt, Data p = Some dt /\ storage.Data_Data dt = line).
  match goal with
  | |- context [fold_left ?f (strings.Split (pools_out d) newline) root] =>
      destruct (attach_each_related f Q)
        with (l := strings.Split (pools_out d) newline) (root := root)
        as [pools [Hfp HQp]]
  end.
  { intros r x. edestruct AddSequential_one_data as [x' [Hx [_ [_ Hdata]]]].
    exists x'. split; [exact Hx |]. eexists. split; [exact Hdata | reflexivity]. }
  rewrite Hfp.
  match goal with
  | |- context [fold_left ?f (strings.Split (volumes_out d) newline) ?r] =>
      destruct (attach_each_related f Q)
        with (l := strings.Split (volumes_out d) newline) (root := r)
        as [volumes [Hfv HQv]]
  end.
  { intros r x. edestruct AddSequential_one_data as [x' [Hx [_ [_ Hdata]]]].
    exists x'. split; [exact Hx |]. eexists. split; [exact Hdata | reflexivity]. }
  rewrite Hfv. exists pools, volumes.
  cbn [set_Phases Phases]. rewrite <- app_assoc.
  split; [reflexivity |].
  assert (Hne : forall (l : list string) (ps : list Phase), Forall2 Q l ps -> l <> [] -> ps <> []).
  { intros l ps H Hl ->. inversion H. subst. contradiction. }
  split; [exact (Hne _ _ HQp (Split_not_nil _ _)) |].
  split; [exact (Hne _ _ HQv (Split_not_nil _ _)) |].
  split.
  - clear Hfp Hfv HQv. induction HQp as [| x p l ps [dt [Hd Hl]] _ IH]; constructor.
    + apply (NewPhaseUpgradePool_short p dt Hd). rewrite Hl. apply Hpools. left. reflexivity.
    + apply IH. intros line Hin. apply Hpools. right. exact Hin.
  - clear Hfp Hfv HQp. induction HQv as [| x p l ps [dt [Hd Hl]] _ IH]; constructor.
    + apply (NewPhaseUpgradeVolume_short p dt Hd). rewrite Hl. apply Hvolumes. left. reflexivity.
    + apply IH. intros line Hin. apply Hvolumes. right. exact Hin.
Qed.

Lemma openEBSUpgrade_phases_panic_constructors_witness :
  exists pools volumes,
    Phases (fst (openEBSUpgrade twoPoolsOneVolume lead1 storageRoot))
    = Phases storageRoot ++ pools ++ volumes /\
    pools <> [] /\ volumes <> [] /\
    Forall (fun p => NewPhaseUpgradePool p = Panics "index out of range") pools /\
    Forall (fun p => NewPhaseUpgradeVolume p = Panics "index out of range") volumes.
Proof.
  apply (openEBSUpgrade_phases_panic_constructors twoPoolsOneVolume lead1 storageRoot).
  - reflexivity.
  - intros line [<- | [<- | []]]; vm_compute; lia.
  - intros line [<- | []]; vm_compute; lia.
Defined.

(** ** The etcd version check, continued *)

Section EtcdVersionProperties.

Variables Link TrustedCluster Role Version : Type.
Variable NewVersion : string -> result Version.
Variable Compare : Version -> Version -> Z.
Variable VersionString : Version -> string.
Variable legacyName : string.

(** X6.  Whenever [shouldUpdateEtcd] returns an error, its answer is false and
    both version strings are empty: no upgrade is ever reported next to an
    error, not even when the installed package has no etcd label. *)
Theorem shouldUpdateEtcd_error_answers_nothing
    (p : planConfig Link TrustedCluster Role)
    (updateEtcd : bool) (installedEtcdVersion updateEtcdVersion : string) (err : error)
    (Hresult : shouldUpdateEtcd NewVersion Compare VersionString legacyName p
               = (updateEtcd, installedEtcdVersion, updateEtcdVersion, Some err)) :
  updateEtcd = false /\ installedEtcdVersion = "" /\ updateEtcdVersion = "".
Proof.
  revert Hresult. unfold shouldUpdateEtcd.
  assert (Hcont : forall pkg,
    (let installed := getEtcdVersion NewVersion "version-etcd" pkg (packageService p) in
     match installed with
     | Err e => if negb (trace_IsNotFound e) then (false, "", "", Some (trace_Wrap e))
                else
                  match DefaultRuntimePackage (App_Manifest (updateRuntime p)) with
                  | Err e' => (false, "", "", Some (trace_Wrap e'))
                  | Ok pkg' =>
                      match getEtcdVersion NewVersion "version-etcd" pkg' (packageService p) with
                      | Err e' => (false, "", "", Some (trace_Wrap e'))
                      | Ok uv => (true, "", VersionString uv, None)
                      end
                  end
     | Ok iv =>
         match DefaultRuntimePackage (App_Manifest (updateRuntime p)) with
         | Err e' => (false, "", "", Some (trace_Wrap e'))
         | Ok pkg' =>
             match getEtcdVersion NewVersion "version-etcd" pkg' (packageService p) with
             | Err e' => (false, "", "", Some (trace_Wrap e'))
             | Ok uv => (if (Compare iv uv <? 0)%Z then true else false,
                         VersionString iv, VersionString uv, None)
             end
         end
     end) = (updateEtcd, installedEtcdVersion, updateEtcdVersion, Some err) ->
    updateEtcd = false /\ installedEtcdVersion = "" /\ updateEtcdVersion = "").
  { intros pkg. cbv zeta.
    destruct (getEtcdVersion NewVersion "version-etcd" pkg (packageService p)) as [iv | e].
    - destruct (DefaultRuntimePackage (App_Manifest (updateRuntime p))) as [pkg' | e'].
      + destruct (getEtcdVersion NewVersion "version-etcd" pkg' (packageService p));
          intros H; inversion H; repeat split.
      + intros H; inversion H; repeat split.
    - destruct (negb (trace_IsNotFound e)); [intros H; inversion H; repeat split |].
      destruct (DefaultRuntimePackage (App_Manifest (updateRuntime p))) as [pkg' | e'].
      + destruct (getEtcdVersion NewVersion "version-etcd" pkg' (packageService p));
          intros H; inversion H; repeat split.
      + intros H; inversion H; repeat split. }
  destruct (DefaultRuntimePackage (App_Manifest (installedRuntime p))) as [pkg | e].
  - exact (Hcont pkg).
  - destruct (negb (trace_IsNotFound e)); [intros H; inversion H; repeat split |].
    destruct (Dependencies_ByName (App_Manifest (installedRuntime p)) legacyName) as [pkg | e'].
    + exact (Hcont pkg).
    + intros H; inversion H; repeat split.
Qed.

(** X7.  When the installed application names no default runtime package:
    an error other than not-found is returned wrapped, without a look at the
    legacy runtime package; a not-found error makes the function fall back to
    the legacy package, and if that lookup fails too, whatever its error, the
    function reports "runtime package not found" as a not-found error. *)
Theorem shouldUpdateEtcd_runtime_package_lookup
    (p : planConfig Link TrustedCluster Role) (err : error)
    (Hdefault : DefaultRuntimePackage (App_Manifest (installedRuntime p)) = Err err) :
  (trace_IsNotFound err = false ->
   shouldUpdateEtcd NewVersion Compare VersionString legacyName p
   = (false, "", "", Some (trace_Wrap err))) /\
  (trace_IsNotFound err = true ->
   forall err',
     Dependencies_ByName (App_Manifest (installedRuntime p)) legacyName = Err err' ->
     shouldUpdateEtcd NewVersion Compare VersionString legacyName p
     = (false, "", "", Some (trace_NotFound "runtime package not found"))).
Proof.
  unfold shouldUpdateEtcd. rewrite Hdefault. split.
  - intros ->. reflexivity.
  - intros -> err' ->. reflexivity.
Qed.

(** [strings.TrimPrefix] removes a prefix that is there. *)
Lemma substring_all (s : string) : substring 0 (String.length s) s = s.
Proof. induction s as [| c s IH]; cbn; [reflexivity | rewrite IH; reflexivity]. Qed.

Lemma TrimPrefix_v (s : string) : strings.TrimPrefix (String "v" s) "v" = s.
Proof.
  unfold strings.TrimPrefix. cbn [String.prefix String.length].
  destruct (ascii_dec "v" "v") as [_ | Hne]; [| contradiction Hne; reflexivity].
  cbn. rewrite Nat.sub_0_r. destruct s; [reflexivity |]. apply substring_all.
Qed.

(** X8.  [getEtcdVersion] reads the first label that carries the searched
    name, whatever follows it, and a leading "v" of its value is optional:
    the value with and without it give the same result. *)
Theorem getEtcdVersion_first_label_v_optional
    (searchLabel value : string) (before after : list Label)
    (Hbefore : forall l, In l before -> Label_Name l <> searchLabel) :
  getEtcdVersion_labels NewVersion searchLabel
    (before ++ {| Label_Name := searchLabel; Label_Value := String "v" value |} :: after)
  = match NewVersion value with
    | Err err => Err (trace_Wrap err)
    | Ok version => Ok version
    end /\
  (String.prefix "v" value = false ->
   getEtcdVersion_labels NewVersion searchLabel
     (before ++ {| Label_Name := searchLabel; Label_Value := value |} :: after)
   = match NewVersion value with
     | Err err => Err (trace_Wrap err)
     | Ok version => Ok version
     end).
Proof.
  induction before as [| l before IH]; cbn [app getEtcdVersion_labels Label_Name Label_Value].
  - rewrite String.eqb_refl, TrimPrefix_v. split; [reflexivity |].
    intros Hv. unfold strings.TrimPrefix. rewrite Hv. reflexivity.
  - destruct (String.eqb_spec (Label_Name l) searchLabel) as [Heq | _].
    + exfalso. apply (Hbefore l); [left; reflexivity | exact Heq].
    + apply IH. intros l' Hin. apply Hbefore. right. exact Hin.
Qed.

End EtcdVersionProperties.

Lemma shouldUpdateEtcd_error_answers_nothing_witness :
  shouldUpdateEtcd semver.NewVersion semver.Compare semver.String "planet-master"
    configWithoutUpdate
  = (false, "", "", Some (trace_Wrap (trace_Wrap (trace_NotFound "package not found")))) /\
  (false = false /\ "" = "" /\ "" = "").
Proof.
  split; [reflexivity |].
  apply (shouldUpdateEtcd_error_answers_nothing unit unit unit semver.Version
           semver.NewVersion semver.Compare semver.String "planet-master"
           configWithoutUpdate false "" ""
           (trace_Wrap (trace_Wrap (trace_NotFound "package not found")))).
  reflexivity.
Defined.

Lemma shouldUpdateEtcd_runtime_package_lookup_witness :
  (trace_IsNotFound (trace_NotFound "no runtime package") = false ->
   shouldUpdateEtcd semver.NewVersion semver.Compare semver.String "planet-master"
     configWithoutRuntime
   = (false, "", "", Some (trace_Wrap (trace_NotFound "no runtime package")))) /\
  (trace_IsNotFound (trace_NotFound "no runtime package") = true ->
   forall err',
     Dependencies_ByName (App_Manifest (installedRuntime configWithoutRuntime)) "planet-master"
     = Err err' ->
     shouldUpdateEtcd semver.NewVersion semver.Compare semver.String "planet-master"
       configWithoutRuntime
     = (false, "", "", Some (trace_NotFound "runtime package not found"))).
Proof.
  apply (shouldUpdateEtcd_runtime_package_lookup unit unit unit semver.Version
           semver.NewVersion semver.Compare semver.String "planet-master"
           configWithoutRuntime (trace_NotFound "no runtime package")).
  reflexivity.
Defined.

Lemma getEtcdVersion_first_label_v_optional_witness :
  getEtcdVersion_labels semver.NewVersion "version-etcd"
    ([ {| Label_Name := "purpose"; Label_Value := "runtime" |} ]
     ++ {| Label_Name := "version-etcd"; Label_Value := String "v" "3.3.11" |}
     :: [ {| Label_Name := "version-etcd"; Label_Value := "2.0.0" |} ])
  = match semver.NewVersion "3.3.11" with
    | Err err => Err (trace_Wrap err)
    | Ok version => Ok version
    end /\
  (String.prefix "v" "3.3.11" = false ->
   getEtcdVersion_labels semver.NewVersion "version-etcd"
     ([ {| Label_Name := "purpose"; Label_Value := "runtime" |} ]
      ++ {| Label_Name := "version-etcd"; Label_Value := "3.3.11" |}
      :: [ {| Label_Name := "version-etcd"; Label_Value := "2.0.0" |} ])
   = match semver.NewVersion "3.3.11" with
     | Err err => Err (trace_Wrap err)
     | Ok version => Ok version
     end).
Proof.
  apply (getEtcdVersion_first_label_v_optional semver.Version semver.NewVersion
           "version-etcd" "3.3.11"
           [ {| Label_Name := "purpose"; Label_Value := "runtime" |} ]
           [ {| Label_Name := "version-etcd"; Label_Value := "2.0.0" |} ]).
  intros l [<- | []]. discriminate.
Defined.

(** ** The CoreDNS check *)

(** X9.  [shouldUpdateCoreDNS] is decided by the first of its three lookups
    that fails: the answer is true exactly when that failure is a not-found
    error, an error is returned exactly when it is any other error (wrapped),
    and with all three resources in place the answer is false.  A true answer
    never comes with an error. *)
Theorem shouldUpdateCoreDNS_first_failure (client : CoreDNSLookups) :
  shouldUpdateCoreDNS client
  = match firstFailure [ClusterRoles_Get client; ClusterRoleBindings_Get client;
                        ConfigMaps_Get client] with
    | None => (false, None)
    | Some err =>
        if trace_IsNotFound err then (true, None) else (false, Some (trace_Wrap err))
    end /\
  (fst (shouldUpdateCoreDNS client) = true -> snd (shouldUpdateCoreDNS client) = None).
Proof.
  unfold shouldUpdateCoreDNS.
  destruct (ClusterRoles_Get client) as [e1 |]; cbn [firstFailure].
  { destruct (trace_IsNotFound e1); split; try reflexivity; discriminate. }
  destruct (ClusterRoleBindings_Get client) as [e2 |]; cbn [firstFailure].
  { destruct (trace_IsNotFound e2); split; try reflexivity; discriminate. }
  destruct (ConfigMaps_Get client) as [e3 |]; cbn [firstFailure].
  { destruct (trace_IsNotFound e3); split; try reflexivity; discriminate. }
  split; [reflexivity | discriminate].
Qed.

(** ** Per-node builders *)

(** A loop attaching, for each item, a child that depends on the parent only
    through its ID, appends the children of all items. *)
Lemma fold_left_attach {A} (f : A -> Phase -> Phase)
    (Hf : forall s p l, f s (set_Phases p l) = f s p)
    (items : list A) (p : Phase) :
  fold_left (fun acc s => set_Phases acc (Phases acc ++ [f s acc])) items p
  = set_Phases p (Phases p ++ map (fun s => f s p) items).
Proof.
  revert p. induction items as [| s items IH]; intros p; cbn [fold_left map].
  - rewrite app_nil_r. destruct p; reflexivity.
  - rewrite IH. unfold set_Phases. cbn [ID Executor Description Data Phases Requires].
    rewrite <- app_assoc. cbn [app].
    f_equal. f_equal. f_equal. apply map_ext. intros a.
    apply (Hf a p (Phases p ++ [f s p])).
Qed.

(** Appending to a fixed prefix is one-to-one. *)
Lemma append_prefix_inj (prefix a b : string) :
  (prefix ++ a)%string = (prefix ++ b)%string -> a = b.
Proof.
  induction prefix as [| c prefix IH]; cbn; intros H.
  - exact H.
  - inversion H. apply IH. assumption.
Qed.

(** Distinct names give distinct paths under one parent. *)
Lemma NoDup_child_paths {A} (prefix : string) (name : A -> string) (l : list A) :
  NoDup (map name l) -> NoDup (map (fun a => (prefix ++ name a)%string) l).
Proof.
  induction l as [| a l IH]; cbn [map]; intros H.
  - constructor.
  - inversion H as [| x xs Hnotin Hrest]; subst. constructor.
    + intros Hin. apply Hnotin. apply in_map_iff in Hin.
      destruct Hin as [b [Heq Hb]]. apply append_prefix_inj in Heq.
      rewrite <- Heq. apply in_map. exact Hb.
    + apply IH. exact Hrest.
Qed.

(** X10.  [config] builds the phase /config with one child per node, in the
    order of the nodes: the child of a node has the path /config/<hostname>,
    targets that node, has no children and no dependency (the children run in
    parallel).  When the hostnames are pairwise distinct, so are the paths of
    the children. *)
Theorem config_one_phase_per_node (configExecutor : ExecutorKind)
    (nodes : list storage.Server)
    (Hdistinct : NoDup (map storage.Hostname nodes)) :
  let plan := config configExecutor nodes in
  ID plan = "/config" /\
  edges (Phases plan)
  = map (fun s => ("/config/" ++ storage.Hostname s, Some s, []))%string nodes /\
  Forall (fun p => Executor p = Some configExecutor /\ Phases p = []) (Phases plan) /\
  NoDup (map ID (Phases plan)).
Proof.
  cbv zeta. unfold config. cbv zeta. unfold AddParallel.
  rewrite (fold_left_attach
             (fun node root =>
                {| ID := ChildLiteral root (storage.Hostname node);
                   Executor := Some configExecutor;
                   Description := fmt.Sprintf "Update system configuration on node %q"
                                    [storage.Hostname node];
                   Data := Some {| storage.Data_Server := Some node;
                                   storage.Data_ExecServer := None;
                                   storage.Data_Master := None;
                                   storage.Data_Update := None;
                                   storage.Data_ElectionChange := None;
                                   storage.Data_Data := "" |};
                   Phases := [];
                   Requires := [] |})) by reflexivity.
  cbn [set_Phases Phases ID RootPhase set_ID group app].
  split; [reflexivity |].
  unfold edges. rewrite !map_map. cbn [ID target Data storage.Data_Server Requires].
  split; [reflexivity |]. split.
  - apply Forall_forall. intros p Hp. apply in_map_iff in Hp.
    destruct Hp as [s [<- _]]. split; reflexivity.
  - apply (NoDup_child_paths "/config/" storage.Hostname nodes Hdistinct).
Qed.

Lemma config_one_phase_per_node_witness :
  let plan := config updateLabels [master1; master2] in
  ID plan = "/config" /\
  edges (Phases plan)
  = map (fun s => ("/config/" ++ storage.Hostname s, Some s, []))%string [master1; master2] /\
  Forall (fun p => Executor p = Some updateLabels /\ Phases p = []) (Phases plan) /\
  NoDup (map ID (Phases plan)).
Proof.
  apply (config_one_phase_per_node updateLabels [master1; master2]).
  repeat constructor; cbn; intuition discriminate.
Defined.

(** X11.  [cleanup] builds the phase /gc with one child per server, in the
    order of the servers: the child of a server has the path /gc/<hostname>,
    runs the clean-up executor on that server, has no children and no
    dependency.  When the hostnames are pairwise distinct, so are the paths of
    the children. *)
Theorem cleanup_one_phase_per_server (cleanupNode : ExecutorKind)
    (servers : list storage.UpdateServer)
    (Hdistinct : NoDup (map us_Hostname servers)) :
  let plan := cleanup cleanupNode servers in
  ID plan = "/gc" /\
  edges (Phases plan)
  = map (fun s => ("/gc/" ++ us_Hostname s, Some (storage.us_Server s), []))%string servers /\
  Forall (fun p => Executor p = Some cleanupNode /\ Phases p = []) (Phases plan) /\
  NoDup (map ID (Phases plan)).
Proof.
  cbv zeta. unfold cleanup. cbv zeta. unfold AddParallel.
  rewrite (fold_left_attach
             (fun server root =>
                {| ID := ID (node (storage.us_Server server) root "Clean up node %q");
                   Executor := Some cleanupNode;
                   Description :=
                     Description (node (storage.us_Server server) root "Clean up node %q");
                   Data := Some {| storage.Data_Server := Some (storage.us_Server server);
                                   storage.Data_ExecServer := None;
                                   storage.Data_Master := None;
                                   storage.Data_Update := None;
                                   storage.Data_ElectionChange := None;
                                   storage.Data_Data := "" |};
                   Phases := Phases (node (storage.us_Server server) root "Clean up node %q");
                   Requires :=
                     Requires (node (storage.us_Server server) root "Clean up node %q") |}))
    by reflexivity.
  cbn [set_Phases Phases ID RootPhase set_ID group app].
  split; [reflexivity |].
  unfold edges. rewrite !map_map. split; [reflexivity |]. split.
  - apply Forall_forall. intros p Hp. apply in_map_iff in Hp.
    destruct Hp as [s [<- _]]. split; reflexivity.
  - apply (NoDup_child_paths "/gc/" us_Hostname servers Hdistinct).
Qed.

Lemma cleanup_one_phase_per_server_witness :
  let plan := cleanup updateLabels [lead1; worker1] in
  ID plan = "/gc" /\
  edges (Phases plan)
  = map (fun s => ("/gc/" ++ us_Hostname s, Some (storage.us_Server s), []))%string
        [lead1; worker1] /\
  Forall (fun p => Executor p = Some updateLabels /\ Phases p = []) (Phases plan) /\
  NoDup (map ID (Phases plan)).
Proof.
  apply (cleanup_one_phase_per_server updateLabels [lead1; worker1]).
  repeat constructor; cbn; intuition discriminate.
Defined.

(** Subtrees without a leader-election phase contribute none. *)
Lemma filter_election_flat_map (l : list Phase) :
  Forall (fun p => filter is_election (flatten p) = []) l ->
  filter is_election (flat_map flatten l) = [].
Proof.
  induction 1 as [| p l Hp _ IH]; cbn [flat_map].
  - reflexivity.
  - rewrite filter_app, IH, Hp. reflexivity.
Qed.

(** X12.  [nodes] builds the phase /nodes with one child per regular node, in
    order, at the path /nodes/<hostname>.  The children have no dependency on
    each other (the nodes are upgraded in parallel).  Each holds the sequence
    drain, system upgrade, health, taint if supported, uncordon, endpoint
    wait, untaint if supported; the plan holds no leader-election phase. *)
Theorem nodes_parallel_upgrade (leadMaster : storage.UpdateServer)
    (workers : list storage.UpdateServer) (supportsTaints : bool) :
  let plan := nodes leadMaster workers supportsTaints in
  ID plan = "/nodes" /\
  edges (Phases plan)
  = map (fun s => ("/nodes/" ++ us_Hostname s, None, []))%string workers /\
  Forall (fun n =>
            map Executor (Phases n)
            = [Some drainNode; Some updateSystem; Some nodeHealth]
              ++ (if supportsTaints then [Some taintNode] else [])
              ++ [Some uncordonNode; Some endpoints]
              ++ (if supportsTaints then [Some untaintNode] else []))
         (Phases plan) /\
  filter is_election (flatten plan) = [].
Proof.
  cbv zeta. unfold nodes. cbv zeta. unfold AddParallel.
  rewrite (fold_left_attach
             (fun server root =>
                AddSequential
                  (node (storage.us_Server server) root "Update system software on node %q")
                  (commonNode server leadMaster supportsTaints true noElectionChanges)))
    by reflexivity.
  cbn [set_Phases Phases ID RootPhase set_ID group app].
  split; [reflexivity |].
  split.
  { unfold edges. rewrite !map_map. apply map_ext. intros s.
    destruct supportsTaints; reflexivity. }
  split.
  { apply Forall_forall. intros p Hp. apply in_map_iff in Hp.
    destruct Hp as [s [<- _]]. destruct supportsTaints; reflexivity. }
  cbn [flatten Phases filter is_election Executor].
  apply filter_election_flat_map. apply Forall_forall. intros p Hp.
  apply in_map_iff in Hp. destruct Hp as [s [<- _]].
  destruct supportsTaints; reflexivity.
Qed.

(** ** The common-node sequence, continued *)

(** X13.  The phases of the common-node list have pairwise distinct IDs, for
    every combination of the flags, provided the election change, when it
    adds a phase, does not take one of the seven fixed IDs; the default ID
    "elect" of an election change without ID of its own never does. *)
Theorem commonNode_distinct_ids (server leadMaster : storage.UpdateServer)
    (supportsTaints waitsForEndpoints : bool) (ec : electionChanges)
    (Hid : shouldAddPhase ec = true ->
           ~ In (electionChanges_ID ec)
                ["drain"; "system-upgrade"; "health"; "taint"; "uncordon";
                 "endpoints"; "untaint"]%string) :
  NoDup (map ID (commonNode server leadMaster supportsTaints waitsForEndpoints ec)).
Proof.
  unfold commonNode.
  destruct (shouldAddPhase ec); [specialize (Hid eq_refl) |];
    destruct supportsTaints, waitsForEndpoints; cbn in *;
    repeat (constructor; [cbn; intuition (try discriminate; eauto 10) |]);
    constructor.
Qed.

Lemma commonNode_distinct_ids_witness :
  NoDup (map ID (commonNode lead2 lead1 true true
                   {| id := ""; description := fmt.Lit "Enable leader election";
                      enable := [master2]; disable := [] |})).
Proof.
  apply (commonNode_distinct_ids lead2 lead1 true true).
  intros _. cbn. intuition discriminate.
Defined.

(** ** The masters phase, continued *)

(** The last element of a slice that ends with [x] is [x]. *)
Lemma last_error_snoc {A} (l : list A) (x : A) : last_error (l ++ [x]) = Some x.
Proof.
  unfold last_error. rewrite length_app. cbn [length].
  replace (length l + 1 - 1) with (length l) by lia.
  rewrite nth_error_app2 by lia. rewrite Nat.sub_diag. reflexivity.
Qed.

(** [serversToStorage] keeps the servers and their order. *)
Lemma serversToStorage_map (updates : list storage.UpdateServer) :
  serversToStorage updates = map storage.us_Server updates.
Proof.
  unfold serversToStorage.
  assert (H : forall acc,
             fold_left (fun result update => result ++ [storage.us_Server update]) updates acc
             = acc ++ map storage.us_Server updates).
  { induction updates as [| u updates IH]; intros acc; cbn [fold_left map].
    - rewrite app_nil_r. reflexivity.
    - rewrite IH, <- app_assoc. reflexivity. }
  apply (H []).
Qed.

Section MastersChain.

Variable leadMaster : storage.UpdateServer.
Variable supportsTaints : bool.

(** The body of the loop of [masters] over the other masters. *)
Let step (root : Phase) (server : storage.UpdateServer) : Phase :=
  let node := node (storage.us_Server server) root
                "Update system software on master node %q" in
  let electionChanges :=
    {| id := "";
       description := fmt.Sprintf "Enable leader election on node %q"
                        [us_Hostname server];
       enable := serversToStorage [server];
       disable := [] |} in
  let node := AddSequential node
    (commonNode server leadMaster supportsTaints true electionChanges) in
  AddSequential root [node].

(** The loop appends the chain of node phases, each depending on the one
    attached before it. *)
Lemma masters_loop_chain (others : list storage.UpdateServer) (root : Phase)
    (pre : list Phase) (prev : Phase) :
  ID root = "/masters" -> Phases root = pre ++ [prev] ->
  fold_left step others root
  = set_Phases root
      (Phases root ++ mastersChain leadMaster supportsTaints (ID prev) others).
Proof.
  revert root pre prev.
  induction others as [| o os IH]; intros root pre prev Hid Hph; cbn [fold_left mastersChain].
  - rewrite app_nil_r. destruct root; reflexivity.
  - assert (Hstep : step root o
                    = set_Phases root
                        (Phases root
                         ++ [Require (otherMasterNode leadMaster supportsTaints o) (ID prev)])).
    { unfold step. cbv zeta.
      replace (node (storage.us_Server o) root "Update system software on master node %q")
        with (node (storage.us_Server o) (group "/masters" (fmt.Lit "Update master nodes"))
                "Update system software on master node %q")
        by (unfold node, ChildLiteral; rewrite Hid; reflexivity).
      fold (otherMasterNode leadMaster supportsTaints o).
      unfold AddSequential at 1. cbn [fold_left].
      rewrite Hph, last_error_snoc. reflexivity. }
    rewrite Hstep.
    rewrite (IH _ (pre ++ [prev])
               (Require (otherMasterNode leadMaster supportsTaints o) (ID prev))).
    + cbn [set_Phases Phases ID Executor Description Data Requires Require].
      rewrite <- app_assoc. reflexivity.
    + exact Hid.
    + cbn [set_Phases Phases]. rewrite Hph. reflexivity.
Qed.

(** The paths and the dependencies along the chain. *)
Lemma mastersChain_edges (prev : string) (others : list storage.UpdateServer) :
  map ID (mastersChain leadMaster supportsTaints prev others) = map masterPath others /\
  map Requires (mastersChain leadMaster supportsTaints prev others)
  = map (fun i => [i]) (removelast (prev :: map masterPath others)).
Proof.
  revert prev. induction others as [| o os IH]; intros prev.
  - split; reflexivity.
  - assert (Hid : ID (otherMasterNode leadMaster supportsTaints o) = masterPath o)
      by (destruct supportsTaints; reflexivity).
    cbn [mastersChain map]. unfold Require at 1 2. cbn [ID Requires]. rewrite Hid.
    assert (Hr : Requires (otherMasterNode leadMaster supportsTaints o) = [])
      by (destruct supportsTaints; reflexivity).
    rewrite Hr. cbn [app].
    destruct (IH (masterPath o)) as [IH1 IH2]. rewrite IH1, IH2.
    split; [reflexivity |].
    change (removelast (prev :: masterPath o :: map masterPath os))
      with (prev :: removelast (masterPath o :: map masterPath os)).
    reflexivity.
Qed.

(** The election changes along the chain: each node enables itself. *)
Lemma mastersChain_elections (prev : string) (others : list storage.UpdateServer) :
  map electionChangesOf (mastersChain leadMaster supportsTaints prev others)
  = map (fun s => [Some {| storage.EnableServers := [storage.us_Server s];
                           storage.DisableServers := [] |}]) others.
Proof.
  revert prev. induction others as [| o os IH]; intros prev; cbn [mastersChain map].
  - reflexivity.
  - rewrite IH. f_equal. destruct supportsTaints; reflexivity.
Qed.

(** [masters] as the lead's node phase followed by the chain of the others. *)
Lemma masters_chain (otherMasters : list storage.UpdateServer) :
  exists leadNode,
    Phases (masters leadMaster otherMasters supportsTaints)
    = leadNode :: mastersChain leadMaster supportsTaints (ID leadNode) otherMasters /\
    ID leadNode = masterPath leadMaster /\
    Requires leadNode = [] /\
    (otherMasters <> [] ->
     electionChangesOf leadNode
     = [ Some {| storage.EnableServers := [];
                 storage.DisableServers := [storage.us_Server leadMaster] |};
         Some {| storage.EnableServers := [storage.us_Server leadMaster];
                 storage.DisableServers := serversToStorage otherMasters |} ]).
Proof.
  unfold masters. cbv zeta.
  match goal with
  | |- context [fold_left ?f otherMasters ?r] => change f with step; set (root1 := r)
  end.
  assert (Hroot1 : exists leadNode,
             Phases root1 = [] ++ [leadNode] /\ ID root1 = "/masters" /\
             ID leadNode = masterPath leadMaster /\ Requires leadNode = [] /\
             (otherMasters <> [] ->
              electionChangesOf leadNode
              = [ Some {| storage.EnableServers := [];
                          storage.DisableServers := [storage.us_Server leadMaster] |};
                  Some {| storage.EnableServers := [storage.us_Server leadMaster];
                          storage.DisableServers := serversToStorage otherMasters |} ])).
  { subst root1. destruct otherMasters as [| o os]; destruct supportsTaints;
      eexists; (split; [reflexivity |]); repeat split; intros H;
      try contradiction; reflexivity. }
  destruct Hroot1 as [leadNode [Hph [Hid [Hlid [Hreq Hec]]]]].
  rewrite (masters_loop_chain otherMasters root1 [] leadNode Hid Hph).
  exists leadNode. cbn [set_Phases Phases]. rewrite Hph. cbn [app].
  repeat split; assumption.
Qed.

End MastersChain.

(** X14.  In the masters phase the node phases are, in order, those of the
    lead master and of the other masters, at the paths /masters/<hostname>;
    the lead's has no dependency and every other one depends on exactly the
    node phase before it, so the masters are upgraded one after the other. *)
Theorem masters_one_after_the_other (leadMaster : storage.UpdateServer)
    (otherMasters : list storage.UpdateServer) (supportsTaints : bool) :
  let plan := masters leadMaster otherMasters supportsTaints in
  map ID (Phases plan) = map masterPath (leadMaster :: otherMasters) /\
  map Requires (Phases plan)
  = [] :: map (fun path => [path])
              (removelast (map masterPath (leadMaster :: otherMasters))).
Proof.
  cbv zeta.
  destruct (masters_chain leadMaster supportsTaints otherMasters)
    as [leadNode [Hph [Hid [Hreq _]]]].
  rewrite Hph. cbn [map].
  destruct (mastersChain_edges leadMaster supportsTaints (ID leadNode) otherMasters)
    as [H1 H2].
  rewrite H1, H2, Hid, Hreq. split; reflexivity.
Qed.

(** X15.  With other masters, the leader-election phases of the lead master's
    node are the stepdown, which disables the lead, and then the failover,
    which enables the lead and disables all other masters, in their order; the
    node of every other master has one election phase, which enables that
    master and disables none. *)
Theorem masters_election_choreography (leadMaster : storage.UpdateServer)
    (otherMasters : list storage.UpdateServer) (supportsTaints : bool)
    (Hothers : otherMasters <> []) :
  map electionChangesOf (Phases (masters leadMaster otherMasters supportsTaints))
  = [ Some {| storage.EnableServers := [];
              storage.DisableServers := [storage.us_Server leadMaster] |};
      Some {| storage.EnableServers := [storage.us_Server leadMaster];
              storage.DisableServers := map storage.us_Server otherMasters |} ]
    :: map (fun s => [Some {| storage.EnableServers := [storage.us_Server s];
                              storage.DisableServers := [] |}]) otherMasters.
Proof.
  destruct (masters_chain leadMaster supportsTaints otherMasters)
    as [leadNode [Hph [_ [_ Hec]]]].
  rewrite Hph. cbn [map].
  rewrite (Hec Hothers), mastersChain_elections, serversToStorage_map. reflexivity.
Qed.

Lemma masters_election_choreography_witness :
  map electionChangesOf (Phases (masters lead1 [lead2] true))
  = [ Some {| storage.EnableServers := [];
              storage.DisableServers := [master1] |};
      Some {| storage.EnableServers := [master1];
              storage.DisableServers := map storage.us_Server [lead2] |} ]
    :: map (fun s => [Some {| storage.EnableServers := [storage.us_Server s];
                              storage.DisableServers := [] |}]) [lead2].
Proof.
  apply (masters_election_choreography lead1 [lead2] true). discriminate.
Defined.

(** ** The etcd sub-plan, continued *)

(** A list without duplicates stays so with a new element at its end. *)
Lemma NoDup_snoc {A} (l : list A) (x : A) : NoDup l -> ~ In x l -> NoDup (l ++ [x]).
Proof.
  induction l as [| a l IH]; cbn; intros Hl Hx.
  - constructor; [intros [] | constructor].
  - inversion Hl as [| y ys Hnotin Hrest]; subst. constructor.
    + intros Hin. apply in_app_or in Hin. destruct Hin as [Hin | [Heq | []]].
      * contradiction.
      * apply Hx. left. symmetry. exact Heq.
    + apply IH; [exact Hrest | intros Hin; apply Hx; right; exact Hin].
Qed.

(** Phases without children have no two children with one path. *)
Lemma leaves_distinct_children (l : list Phase) :
  Forall leaf l -> Forall (fun p => NoDup (map ID (Phases p))) l.
Proof.
  intros H. apply Forall_forall. intros p Hp.
  rewrite Forall_forall in H. rewrite (H p Hp). constructor.
Qed.

(** X16.  When the hostnames of the masters are pairwise distinct and none of
    them is the name of the gravity-site service, no phase of the etcd
    sub-plan has two children with the same path. *)
Theorem etcdPlan_distinct_child_paths
    (leadMaster : storage.Server) (otherMasters workers : list storage.Server)
    (currentVersion desiredVersion : string)
    (Hdistinct : NoDup (map storage.Hostname (leadMaster :: otherMasters)))
    (Hservice : ~ In GravityServiceName (map storage.Hostname (leadMaster :: otherMasters))) :
  Forall (fun p => NoDup (map ID (Phases p)))
         (flatten (etcdPlan leadMaster otherMasters workers currentVersion desiredVersion)).
Proof.
  rewrite etcdPlan_tree_eq, flatten_etcdPlan_tree.
  assert (Hpaths : forall prefix,
             NoDup (map (fun s => (prefix ++ storage.Hostname s)%string)
                        (leadMaster :: otherMasters))).
  { intros prefix. apply NoDup_child_paths. exact Hdistinct. }
  repeat (apply Forall_app; split).
  - constructor; [| constructor].
    cbn. repeat (constructor; [cbn; intuition discriminate |]). constructor.
  - constructor; [| apply leaves_distinct_children, backupStage_leaves].
    unfold backupStage. cbn [set_Phases Phases]. rewrite map_map.
    exact (Hpaths "/etcd/backup/").
  - constructor; [| apply leaves_distinct_children, shutdownStage_leaves].
    unfold shutdownStage. cbn [set_Phases Phases map]. rewrite map_map.
    exact (Hpaths "/etcd/shutdown/").
  - constructor; [| apply leaves_distinct_children, upgradeStage_leaves].
    unfold upgradeStage. cbn [set_Phases Phases]. rewrite map_map.
    exact (Hpaths "/etcd/upgrade/").
  - constructor; [constructor | constructor].
  - constructor; [| apply leaves_distinct_children, restartStage_leaves].
    unfold restartStage. cbn [set_Phases Phases map]. rewrite map_app, map_map.
    cbn [map].
    pose proof (NoDup_child_paths "/etcd/restart/" (fun n : string => n)
                  (map storage.Hostname (leadMaster :: otherMasters) ++ [GravityServiceName]))
      as H.
    rewrite map_id, map_app, map_map in H. cbn [map] in H.
    apply H. apply NoDup_snoc; assumption.
Qed.

Lemma etcdPlan_distinct_child_paths_witness :
  Forall (fun p => NoDup (map ID (Phases p)))
         (flatten (etcdPlan master1 [master2] [] "3.3.2" "3.3.11")).
Proof.
  apply (etcdPlan_distinct_child_paths master1 [master2] [] "3.3.2" "3.3.11").
  - repeat constructor; cbn; intuition discriminate.
  - cbn. intuition discriminate.
Defined.

(** X17.  The shutdown stage of the etcd sub-plan tells the lead master from
    the others: the payload of the lead's shutdown phase is "true", that of
    every other master's is "false".  The plan does not depend on the list of
    workers: it holds no phase for them. *)
Theorem etcdPlan_leader_flag_and_workers
    (leadMaster : storage.Server) (otherMasters workers : list storage.Server)
    (currentVersion desiredVersion : string) :
  (exists shutdown,
      nth_error (Phases (etcdPlan leadMaster otherMasters workers
                           currentVersion desiredVersion)) 1 = Some shutdown /\
      ID shutdown = "/etcd/shutdown" /\
      map target (Phases shutdown) = map Some (leadMaster :: otherMasters) /\
      map payload (Phases shutdown) = "true" :: map (fun _ => "false") otherMasters) /\
  etcdPlan leadMaster otherMasters workers currentVersion desiredVersion
  = etcdPlan leadMaster otherMasters [] currentVersion desiredVersion.
Proof.
  rewrite !etcdPlan_tree_eq. split; [| reflexivity].
  exists (shutdownStage leadMaster otherMasters).
  split; [reflexivity |]. split; [reflexivity |].
  unfold shutdownStage. cbn [set_Phases Phases map]. rewrite !map_map.
  split; reflexivity.
Qed.

(** ** The iSCSI checker *)

(** The loop over the units adds the probes of the conflicting ones. *)
Lemma report_conflicts (units : list UnitStatus) (reporter : list Probe) :
  fold_left
    (fun reporter unit =>
       if conflicting unit
       then reporter ++
            [FailedProbe iscsiCheckerID
               (fmt.Sprintf
                  "Found conflicting program: %v. Please disable this service and try again."
                  [Unit_Name unit])]
       else reporter)
    units reporter
  = reporter ++ map conflictProbe (filter conflicting units).
Proof.
  revert reporter. induction units as [| u units IH]; intros reporter; cbn [fold_left filter].
  - rewrite app_nil_r. reflexivity.
  - rewrite IH. destruct (conflicting u); [| reflexivity].
    cbn [map]. rewrite <- app_assoc. reflexivity.
Qed.

(** A filter that no element passes keeps nothing. *)
Lemma filter_none {A} (f : A -> bool) (l : list A) :
  (forall a, In a l -> f a = false) -> filter f l = [].
Proof.
  induction l as [| a l IH]; intros H; cbn [filter].
  - reflexivity.
  - rewrite (H a (or_introl eq_refl)). apply IH. intros b Hb. apply H. right. exact Hb.
Qed.

(** X18.  When D-Bus is reached and the units are listed without error, the
    checker reports one failed probe per unit whose name contains
    "iscsid.service" or "iscsid.socket", in the order of the units, and
    nothing else: it reports nothing exactly when no unit conflicts, and the
    call ends as the deferred close of the connection does. *)
Theorem Check_reports_conflicting_units (Conn : Type) (w : Systemd Conn)
    (conn : option Conn) (units : list UnitStatus)
    (Hnew : dbus_New w = (conn, None))
    (Hlist : ListUnits w conn = Returns (units, None)) :
  fst (Check w) = map conflictProbe (filter conflicting units) /\
  (fst (Check w) = [] <-> forall u, In u units -> conflicting u = false) /\
  snd (Check w) = match Close w conn with
                  | Panics reason => Panics reason
                  | Returns _ => Returns tt
                  end.
Proof.
  assert (Hcheck : Check w
                   = (map conflictProbe (filter conflicting units),
                      match Close w conn with
                      | Panics reason => Panics reason
                      | Returns _ => Returns tt
                      end)).
  { unfold Check. rewrite Hnew, Hlist, report_conflicts. cbn [app].
    destruct (Close w conn); reflexivity. }
  rewrite Hcheck. cbn [fst snd]. split; [reflexivity |]. split; [| reflexivity].
  split.
  - intros Hnil u Hu. destruct (conflicting u) eqn:Hc; [| reflexivity].
    assert (Hin : In u (filter conflicting units)) by (apply filter_In; split; assumption).
    apply (in_map conflictProbe) in Hin. rewrite Hnil in Hin. destruct Hin.
  - intros Hnone. rewrite (filter_none conflicting units Hnone). reflexivity.
Qed.

Lemma Check_reports_conflicting_units_witness :
  fst (Check hostWithIscsid)
  = map conflictProbe
      (filter conflicting
         [ {| Unit_Name := "sshd.service" |}; {| Unit_Name := "iscsid.service" |};
           {| Unit_Name := "iscsid.socket" |} ]) /\
  (fst (Check hostWithIscsid) = [] <->
   forall u, In u [ {| Unit_Name := "sshd.service" |}; {| Unit_Name := "iscsid.service" |};
                    {| Unit_Name := "iscsid.socket" |} ] -> conflicting u = false) /\
  snd (Check hostWithIscsid) = match Close hostWithIscsid (Some 1) with
                               | Panics reason => Panics reason
                               | Returns _ => Returns tt
                               end.
Proof.
  apply (Check_reports_conflicting_units nat hostWithIscsid (Some 1)); reflexivity.
Defined.

(** X19.  A failed connection to D-Bus does not end the check: the failure is
    reported first, and the units are still listed on the connection that
    [dbus.New] returned.  What that listing returns is reported after the
    connection failure, and if the listing panics, as a nil connection may
    make it, the check panics with the failure already reported. *)
Theorem Check_goes_on_without_connection (Conn : Type) (w : Systemd Conn)
    (conn : option Conn) (err : error)
    (Hnew : dbus_New w = (conn, Some err)) :
  let failure :=
    NewProbeFromErr iscsiCheckerID "failed to connect to dbus" (trace_Wrap err) in
  (forall reason, ListUnits w conn = Panics reason ->
                  fst (Check w) = [failure] /\ exists reason', snd (Check w) = Panics reason') /\
  (forall units listErr, ListUnits w conn = Returns (units, listErr) ->
     fst (Check w)
     = failure
       :: match listErr with
          | Some err' => [NewProbeFromErr iscsiCheckerID "failed to query systemd units"
                            (trace_Wrap err')]
          | None => []
          end
       ++ map conflictProbe (filter conflicting units)).
Proof.
  cbv zeta. split.
  - intros reason Hlist. unfold Check. rewrite Hnew, Hlist.
    destruct (Close w conn) as [u | reason']; cbn [fst snd];
      (split; [reflexivity | eexists; reflexivity]).
  - intros units listErr Hlist. unfold Check. rewrite Hnew, Hlist, report_conflicts.
    destruct listErr; destruct (Close w conn); cbn [fst app]; try reflexivity;
      rewrite <- app_assoc; reflexivity.
Qed.

Lemma Check_goes_on_without_connection_witness :
  fst (Check hostWithoutDbus)
  = [NewProbeFromErr iscsiCheckerID "failed to connect to dbus"
       (trace_Wrap (errors_New "dial unix /var/run/dbus/system_bus_socket"))] /\
  exists reason', snd (Check hostWithoutDbus) = Panics reason'.
Proof.
  apply (proj1 (Check_goes_on_without_connection nat hostWithoutDbus None
                  (errors_New "dial unix /var/run/dbus/system_bus_socket") eq_refl)
               "nil pointer dereference").
  reflexivity.
Defined.

(** ** The earlier revision of the upgrade job *)

(** X20.  The earlier revision of [execUpgradeJob], kept next to the vendored
    checker, waits for the job and streams its logs, and then returns the logs
    with a nil error without fetching the job: a job with failed pods ends as
    a success there. *)
Theorem execUpgradeJob_earlier_ignores_failed_pods
    (Template TemplateData : Type) (w : Collaborators Template TemplateData)
    (template : Template) (templateData : TemplateData) (jobName : string)
    (buf out logs : string)
    (Hrender : template_Execute w template templateData = Ok buf)
    (Hwrite : ioutil_WriteFile w "openebs_data_plane_component_upgrade.yaml" buf = None)
    (Happly : kubectl_Apply w "openebs_data_plane_component_upgrade.yaml" = (out, None))
    (Hrunner : hooks_NewRunner w = None)
    (Hwait : runner_Wait w {| JobRef_Name := jobName; JobRef_Namespace := "openebs" |} = None)
    (Hstream : runner_StreamLogs w {| JobRef_Name := jobName; JobRef_Namespace := "openebs" |}
               = (logs, None)) :
  execUpgradeJob_earlier w template templateData jobName = (logs, None) /\
  (forall job, Jobs_Get w "openebs" jobName = Ok job -> Status_Failed job <> 0%Z ->
               snd (execUpgradeJob w template templateData jobName) <> None).
Proof.
  split.
  - unfold execUpgradeJob_earlier.
    rewrite Hrender, Hwrite, Happly, Hrunner, Hwait, Hstream. reflexivity.
  - intros job Hget Hfailed. unfold execUpgradeJob, k8sNamespace.
    rewrite Hrender, Hwrite, Happly, Hrunner, Hstream. cbn [JobRef_Name JobRef_Namespace].
    rewrite Hget. destruct (Z.eqb_spec (Status_Failed job) 0); [contradiction | discriminate].
Qed.

Lemma execUpgradeJob_earlier_ignores_failed_pods_witness :
  execUpgradeJob_earlier (allSucceed 1) tt tt "cstor-pool-a" = ("upgrade failed", None) /\
  (forall job, Jobs_Get (allSucceed 1) "openebs" "cstor-pool-a" = Ok job ->
               Status_Failed job <> 0%Z ->
               snd (execUpgradeJob (allSucceed 1) tt tt "cstor-pool-a") <> None).
Proof.
  apply (execUpgradeJob_earlier_ignores_failed_pods unit unit (allSucceed 1) tt tt
           "cstor-pool-a" "kind: Job" "job.batch/cstor-pool-a created" "upgrade failed"
           eq_refl eq_refl eq_refl eq_refl eq_refl eq_refl).
Defined.
